(** * longcon: the HTTP monitor of [monitor.go]

    A shallow embedding of [src/monitor.go] and the properties of its
    connection wrapper, dialing client, prober and supervisor.

    Conventions of the embedding.
    - A Go [int], [int64] or [time.Duration] is a [Z]; where the source
      does arithmetic on it the 64-bit wrap-around is written out.
    - A Go [string] is a [string] (a sequence of bytes).
    - A Go [error] value is an [option error], [None] for [nil]; a call
      that returns a value or an error returns a [result].
    - Code with effects (standard output, the clock, the network, the
      [go] statement) runs in the monad [M]: it takes the process state
      and either returns a result with the new state, or never returns
      ([None]: the call blocks for ever).
    - The Go standard library is not part of the repository.  The
      functions of it that the program calls are modelled after their
      documentation and source (each one says so); what the network
      does is left to an arbitrary environment [Network]. *)

From Stdlib Require Import ZArith Lia Ascii String.
From stdpp Require Import base gmap strings list.

Open Scope Z_scope.

(** ** Go values *)

(** The errors the program can meet.  Only their identity matters: the
    program never inspects an error, it prints or returns it. *)
Inductive error : Type :=
| AddrError (Err Addr : string)          (* net.AddrError *)
| NumError (Func Num Err : string)       (* strconv.NumError *)
| OpError (Op Err : string)              (* net.OpError and the like *)
| ErrTimeout                             (* a deadline was exceeded *)
| ErrUnexpectedEOF.                      (* io.ErrUnexpectedEOF *)

(** The result of a call that returns [(value, error)] with exactly one
    of the two set. *)
Inductive result (A : Type) : Type :=
| Ok (a : A)
| Err (e : error).
Arguments Ok {A} a.
Arguments Err {A} e.

(** An operand of [fmt.Printf]. *)
Inductive Value : Type :=
| VStr (s : string)
| VInt (n : Z)
| VDur (d : Z)                           (* a time.Duration, in ns *)
| VErr (e : error).

(** One call of [fmt.Printf] or [fmt.Println]: the format string of the
    source and the values of its operands.  Standard output is the list
    of these calls, oldest first. *)
Record Line : Type := mkLine { format : string; operands : list Value }.

Definition nl : string := String (Ascii.ascii_of_nat 10) "".

(** ** The process state *)

Record State : Type := mkState {
  clock : Z;                          (* the clock, ns since the epoch *)
  stdout : list Line;                 (* what was printed so far *)
  dials : list (string * string);     (* (network, address) of every TCP dial so far *)
  gets : nat;                         (* number of HTTP exchanges so far *)
  closed : list nat;                  (* sockets that were closed *)
  open_bodies : Z;                    (* response bodies not yet closed *)
  goroutines : list (Z * Z)           (* (workerID, clock) of every [go] statement so far *)
}.

Definition set_clock (t : Z) (s : State) : State :=
  mkState t (stdout s) (dials s) (gets s) (closed s) (open_bodies s) (goroutines s).
Definition set_stdout (o : list Line) (s : State) : State :=
  mkState (clock s) o (dials s) (gets s) (closed s) (open_bodies s) (goroutines s).
Definition set_dials (d : list (string * string)) (s : State) : State :=
  mkState (clock s) (stdout s) d (gets s) (closed s) (open_bodies s) (goroutines s).
Definition set_gets (n : nat) (s : State) : State :=
  mkState (clock s) (stdout s) (dials s) n (closed s) (open_bodies s) (goroutines s).
Definition set_closed (c : list nat) (s : State) : State :=
  mkState (clock s) (stdout s) (dials s) (gets s) c (open_bodies s) (goroutines s).
Definition set_open_bodies (n : Z) (s : State) : State :=
  mkState (clock s) (stdout s) (dials s) (gets s) (closed s) n (goroutines s).
Definition set_goroutines (g : list (Z * Z)) (s : State) : State :=
  mkState (clock s) (stdout s) (dials s) (gets s) (closed s) (open_bodies s) g.

(** ** The monad of effectful code *)

Definition M (A : Type) : Type := State -> option (A * State).

Definition ret {A} (a : A) : M A := fun s => Some (a, s).

Definition bind {A B} (m : M A) (k : A -> M B) : M B :=
  fun s => match m s with
           | Some (a, s') => k a s'
           | None => None
           end.

(** A call that never returns. *)
Definition block {A} : M A := fun _ => None.

Notation "'do' x <- m ; k" := (bind m (fun x => k))
  (at level 10, x name, m at level 100, k at level 200).
Notation "'do' ' p <- m ; k" := (bind m (fun x => let 'p := x in k))
  (at level 10, p pattern, m at level 100, k at level 200).
Notation "'run' m ; k" := (bind m (fun _ => k))
  (at level 10, m at level 100, k at level 200).

(** [fmt.Printf(format, operands...)]; it takes no time. *)
Definition Printf (fmt : string) (ops : list Value) : M unit :=
  fun s => Some (tt, set_stdout (stdout s ++ [mkLine fmt ops]) s).

(** [fmt.Println(text)]. *)
Definition Println (text : string) : M unit :=
  Printf ("%s" +:+ nl) [VStr text].

(** [time.Now()]. *)
Definition time_Now : M Z := fun s => Some (clock s, s).

(** [time.Sleep(d)]: the caller is resumed [d] later. *)
Definition time_Sleep (d : Z) : M unit :=
  fun s => Some (tt, set_clock (clock s + d) s).

(** ** Durations ([time] package constants) *)

Definition Nanosecond : Z := 1.
Definition Millisecond : Z := 1000000 * Nanosecond.
Definition Second : Z := 1000 * Millisecond.

(** ** The constants of [monitor.go] *)

Definition targetURL : string := "https://aga-degradation.pacnw.xyz/test_50kb.bin".
Definition hostOverride : string := "alias-icn1.vercel.com".

Definition requestInterval : Z := 1 * Second.
Definition workerOffset : Z := 147 * Millisecond.
Definition requestTimeout : Z := 10 * Second.

(** ** [net.Conn] and the connection wrapper *)

(** The [net.Conn] interface, as a record of methods.  [Read] takes the
    size of the buffer and returns the bytes read; [Write] returns the
    number of bytes written. *)
Record Conn : Type := mkConn {
  Read : Z -> M (string * option error);
  Write : string -> M (Z * option error);
  Close : M (option error);
  RemoteAddr : string
}.

(** [type connWrapper struct { net.Conn; addr string; prefix string }] *)
Record connWrapper : Type := mkConnWrapper {
  cw_Conn : Conn;
  addr : string;
  prefix : string
}.

(** [func (c *connWrapper) Close() error] *)
Definition connWrapper_Close (c : connWrapper) : M (option error) :=
  run Printf (nl +:+ "%s 🔌 CONNECTION CLOSED to %s") [VStr (prefix c); VStr (addr c)] ;
  Close (cw_Conn c).

(** The method set of [*connWrapper]: the methods of the embedded
    [net.Conn] are promoted, [Close] is the wrapper's own. *)
Definition connWrapper_Conn (c : connWrapper) : Conn :=
  {| Read := Read (cw_Conn c);
     Write := Write (cw_Conn c);
     Close := connWrapper_Close c;
     RemoteAddr := RemoteAddr (cw_Conn c) |}.

(** ** Strings: the byte searches and slices of the Go runtime *)

(** [bytealg.IndexByteString(s, c)]: the index of the first [c] in [s],
    or -1. *)
Fixpoint IndexByteString (s : string) (c : ascii) : Z :=
  match s with
  | EmptyString => -1
  | String a s' =>
      if Ascii.eqb a c then 0
      else let r := IndexByteString s' c in
           if r <? 0 then -1 else r + 1
  end.

(** [bytealg.LastIndexByteString(s, c)]: the index of the last [c] in
    [s], or -1. *)
Fixpoint LastIndexByteString (s : string) (c : ascii) : Z :=
  match s with
  | EmptyString => -1
  | String a s' =>
      let r := LastIndexByteString s' c in
      if 0 <=? r then r + 1
      else if Ascii.eqb a c then 0 else -1
  end.

(** [len(s)] *)
Definition len (s : string) : Z := Z.of_nat (String.length s).

(** [s[lo:hi]], for [0 <= lo <= hi <= len(s)]. *)
Definition slice (s : string) (lo hi : Z) : string :=
  String.substring (Z.to_nat lo) (Z.to_nat (hi - lo)) s.

(** [s[i]], for [0 <= i < len(s)]. *)
Definition byte_at (s : string) (i : Z) : option ascii :=
  String.get (Z.to_nat i) s.

Definition byte_is (s : string) (i : Z) (c : ascii) : bool :=
  match byte_at s i with
  | Some a => Ascii.eqb a c
  | None => false
  end.

(** ** [net.SplitHostPort] and [net.JoinHostPort]

    Standard library ([net/ipsock.go]), followed statement by
    statement. *)

Definition missingPort : string := "missing port in address".
Definition tooManyColons : string := "too many colons in address".

Definition addrErr {A} (addr why : string) : result A := Err (AddrError why addr).

Definition SplitHostPort (hostport : string) : result (string * string) :=
  (* The port starts after the last colon. *)
  let i := LastIndexByteString hostport ":" in
  if i <? 0 then addrErr hostport missingPort
  else
    let bracketed : result (string * Z * Z) :=
      if byte_is hostport 0 "[" then
        (* Expect the first ']' just before the last ':'. *)
        let end_ := IndexByteString hostport "]" in
        if end_ <? 0 then addrErr hostport "missing ']' in address"
        else if end_ + 1 =? len hostport then addrErr hostport missingPort
        else if end_ + 1 =? i then Ok (slice hostport 1 end_, 1, end_ + 1)
        else if byte_is hostport (end_ + 1) ":" then addrErr hostport tooManyColons
        else addrErr hostport missingPort
      else
        let host := slice hostport 0 i in
        if 0 <=? IndexByteString host ":" then addrErr hostport tooManyColons
        else Ok (host, 0, 0) in
    match bracketed with
    | Err e => Err e
    | Ok (host, j, k) =>
        if 0 <=? IndexByteString (slice hostport j (len hostport)) "[" then
          addrErr hostport "unexpected '[' in address"
        else if 0 <=? IndexByteString (slice hostport k (len hostport)) "]" then
          addrErr hostport "unexpected ']' in address"
        else Ok (host, slice hostport (i + 1) (len hostport))
    end.

Definition JoinHostPort (host port : string) : string :=
  (* We assume that host is a literal IPv6 address if host has colons. *)
  if 0 <=? IndexByteString host ":" then "[" +:+ host +:+ "]:" +:+ port
  else host +:+ ":" +:+ port.

(** ** The network and [net.Dialer] *)

(** What a TCP connect attempt meets. *)
Inductive DialOutcome : Type :=
| Connects (after : Z) (c : Conn)    (* established after [after] ns *)
| Refuses (after : Z) (e : error)    (* fails after [after] ns *)
| NoAnswer.                          (* the peer never answers *)

(** A [context.Context], as far as the program uses one: its deadline. *)
Definition Context : Type := option Z.

(** [net.Dialer], the two fields the program sets. *)
Record Dialer : Type := mkDialer { d_Timeout : Z; KeepAlive : Z }.

Definition earliest (a b : option Z) : option Z :=
  match a, b with
  | Some x, Some y => Some (Z.min x y)
  | Some x, None => Some x
  | None, _ => b
  end.

(** Wait for something that happens [after] ns from now ([None]: it
    never happens), at most until [deadline] ([None]: for ever).  The
    clock only moves forward. *)
Definition await {A} (deadline : option Z) (after : option Z) (ontime late : A) : M A :=
  fun s =>
    match after, deadline with
    | Some d, Some t =>
        if clock s + Z.max 0 d <=? t
        then Some (ontime, set_clock (clock s + Z.max 0 d) s)
        else Some (late, set_clock (Z.max (clock s) t) s)
    | Some d, None => Some (ontime, set_clock (clock s + Z.max 0 d) s)
    | None, Some t => Some (late, set_clock (Z.max (clock s) t) s)
    | None, None => None
    end.

(** ** [net/http] values *)

(** [http.Header]: canonical key to the values received for it. *)
Definition validHeaderFieldByte (c : ascii) : bool :=
  let n := nat_of_ascii c in
  ((48 <=? n) && (n <=? 57))%nat || ((65 <=? n) && (n <=? 90))%nat
  || ((97 <=? n) && (n <=? 122))%nat
  || (0 <=? IndexByteString "!#$%&'*+-.^_`|~" c).

Definition is_lower (c : ascii) : bool :=
  let n := nat_of_ascii c in ((97 <=? n) && (n <=? 122))%nat.
Definition is_upper (c : ascii) : bool :=
  let n := nat_of_ascii c in ((65 <=? n) && (n <=? 90))%nat.

Fixpoint all_bytes (p : ascii -> bool) (s : string) : bool :=
  match s with
  | EmptyString => true
  | String a s' => p a && all_bytes p s'
  end.

(** First letter upper case and upper case after each dash. *)
Fixpoint canonicalize (upper : bool) (s : string) : string :=
  match s with
  | EmptyString => EmptyString
  | String c s' =>
      let c' := if upper && is_lower c then ascii_of_nat (nat_of_ascii c - 32)
                else if negb upper && is_upper c then ascii_of_nat (nat_of_ascii c + 32)
                else c in
      String c' (canonicalize (Ascii.eqb c' "-") s')
  end.

(** [textproto.CanonicalMIMEHeaderKey]: a key with a byte that is not
    allowed in a header field name is returned unchanged. *)
Definition CanonicalMIMEHeaderKey (s : string) : string :=
  if all_bytes validHeaderFieldByte s then canonicalize true s else s.

(** [func (h Header) Get(key string) string]: the first value associated
    with the key, [""] when there is none. *)
Definition Header_Get (h : gmap string (list string)) (key : string) : string :=
  match h !! CanonicalMIMEHeaderKey key with
  | Some (v :: _) => v
  | _ => ""
  end.

(** A response body on its way: what the reads of it meet, read after
    read.  A transfer that breaks off leaves a part of the body
    unread. *)
Inductive Stream : Type :=
| EOF                                               (* io.EOF: the body is complete *)
| Chunk (after : Z) (data : string) (rest : Stream) (* [data] arrives after [after] ns *)
| Fail (after : Z) (e : error) (unread : string)    (* the read fails after [after] ns *)
| Stall (unread : string).                          (* nothing arrives any more *)

(** The whole body the server sends. *)
Fixpoint body_bytes (b : Stream) : string :=
  match b with
  | EOF => ""
  | Chunk _ data rest => data +:+ body_bytes rest
  | Fail _ _ unread => unread
  | Stall unread => unread
  end.

(** The transfer reaches the end of the body. *)
Fixpoint complete (b : Stream) : bool :=
  match b with
  | EOF => true
  | Chunk _ _ rest => complete rest
  | Fail _ _ _ => false
  | Stall _ => false
  end.

(** [http.Response], the fields the program reads.  The body carries
    the deadline of the request it answers. *)
Record Response : Type := mkResponse {
  StatusCode : Z;
  Header : gmap string (list string);
  Body : Stream;
  body_deadline : option Z
}.

(** What one HTTP exchange meets: whether the transport has an idle
    connection to reuse, and what comes back once a connection is there
    (TLS handshake, request and response head together). *)
Inductive HeadOutcome : Type :=
| HeadArrives (after : Z) (status : Z) (header : gmap string (list string))
              (body : Stream)
| HeadFails (after : Z) (e : error)
| HeadStalls.

Record Exchange : Type := mkExchange {
  ex_pooled : bool;
  ex_head : HeadOutcome
}.

(** The environment: what the [n]-th TCP connect to an address meets,
    and what the [n]-th HTTP exchange meets. *)
Record Network : Type := mkNetwork {
  connect : nat -> string -> string -> DialOutcome;
  serve : nat -> Exchange
}.

(** [http.Transport]: the fields the program sets, and the two timeouts
    it leaves at their zero value. *)
Record Transport : Type := mkTransport {
  DialContext : Context -> string -> string -> M (result Conn);
  MaxIdleConns : Z;
  MaxIdleConnsPerHost : Z;
  MaxConnsPerHost : Z;
  IdleConnTimeout : Z;
  DisableKeepAlives : bool;
  TLSHandshakeTimeout : Z;
  ResponseHeaderTimeout : Z
}.

(** [http.Client] *)
Record Client : Type := mkClient {
  c_Transport : Transport;
  Timeout : Z
}.

(** The host:port a transport dials for a URL: the port of the URL, or
    the default port of its scheme.  (A simplification of [net/url] and
    of the transport's [canonicalAddr], for URLs of the shape
    [scheme://host[:port]/path].) *)
Fixpoint after_scheme (s : string) : string :=
  match s with
  | String ":" (String "/" (String "/" rest)) => rest
  | String _ s' => after_scheme s'
  | EmptyString => EmptyString
  end.

Definition url_scheme (url : string) : string :=
  slice url 0 (len url - len (after_scheme url) - 3).

Definition url_host (url : string) : string :=
  let rest := after_scheme url in
  let i := IndexByteString rest "/" in
  if i <? 0 then rest else slice rest 0 i.

Definition canonicalAddr (url : string) : string :=
  let host := url_host url in
  if 0 <=? IndexByteString host ":" then host
  else host +:+ ":" +:+ (if String.eqb (url_scheme url) "https" then "443" else "80").

(** ** Formatting *)

Definition digit (n : Z) : string :=
  String (ascii_of_nat (48 + Z.to_nat (n mod 10))) "".

Definition pad2 (n : Z) : string := digit (n / 10) +:+ digit n.
Definition pad3 (n : Z) : string := digit (n / 100) +:+ digit (n / 10) +:+ digit n.

(** [t.Format("15:04:05.000")]: hour, minute, second and the
    milliseconds (truncated) of the time of day, here in UTC. *)
Definition Time_Format (t : Z) : string :=
  let ms := t / Millisecond in
  pad2 (ms / 3600000 mod 24) +:+ ":" +:+ pad2 (ms / 60000 mod 60) +:+ ":"
  +:+ pad2 (ms / 1000 mod 60) +:+ "." +:+ pad3 (ms mod 1000).

(** Decimal digits of a positive number ([fuel] bounds their number). *)
Fixpoint digits (fuel : nat) (n : Z) : string :=
  match fuel with
  | O => EmptyString
  | S fuel' => if n <? 10 then digit n else digits fuel' (n / 10) +:+ digit n
  end.

(** [strconv.Itoa], the [%d] of [fmt]. *)
Definition Itoa (n : Z) : string :=
  if n <? 0 then "-" +:+ digits 20 (- n) else digits 20 n.

(** ** 64-bit integers and durations *)

Definition MaxInt64 : Z := 2 ^ 63 - 1.
Definition MinInt64 : Z := - 2 ^ 63.

(** The value of a 64-bit two's complement integer after an operation
    whose exact result is [z]. *)
Definition wrap64 (z : Z) : Z := (z + 2 ^ 63) mod 2 ^ 64 - 2 ^ 63.

(** [t.Sub(u)]: the difference of the clock readings, saturated to the
    range of a [Duration]. *)
Definition Time_Sub (t u : Z) : Z := Z.max MinInt64 (Z.min MaxInt64 (t - u)).

(** [lessThanHalf(x, y)]: [uint64(x) + uint64(x) < uint64(y)]. *)
Definition lessThanHalf (x y : Z) : bool :=
  ((x mod 2 ^ 64) + (x mod 2 ^ 64)) mod 2 ^ 64 <? y mod 2 ^ 64.

(** [d.Round(m)]: [d] rounded to the nearest multiple of [m], halfway
    values away from zero ([time/time.go]). *)
Definition Duration_Round (d m : Z) : Z :=
  if m <=? 0 then d
  else
    let r := Z.rem d m in
    if d <? 0 then
      let r := - r in
      if lessThanHalf r m then wrap64 (d + r)
      else let d1 := wrap64 (d - m + r) in
           if d1 <? d then d1 else MinInt64
    else
      if lessThanHalf r m then wrap64 (d - r)
      else let d1 := wrap64 (d + m - r) in
           if d <? d1 then d1 else MaxInt64.

(** ** [strconv.Atoi]

    Standard library ([strconv/atoi.go]) for a 64-bit [int], base 10. *)

Definition ErrSyntax : string := "invalid syntax".
Definition ErrRange : string := "value out of range".

Definition syntaxError {A} (fn str : string) : result A := Err (NumError fn str ErrSyntax).
Definition rangeError {A} (fn str : string) : result A := Err (NumError fn str ErrRange).

(** [ch -= '0'] on a byte. *)
Definition digit_val (ch : ascii) : Z := (Z.of_nat (nat_of_ascii ch) - 48) mod 256.

(** The loop of the fast path: [n = n*10 + int(ch)], [None] on a byte
    that is not a digit. *)
Fixpoint atoi_fast (s : string) (n : Z) : option Z :=
  match s with
  | EmptyString => Some n
  | String ch s' =>
      let d := digit_val ch in
      if 9 <? d then None else atoi_fast s' (n * 10 + d)
  end.

Definition has_sign (s : string) : bool := byte_is s 0 "-" || byte_is s 0 "+".

(** The loop of [ParseUint(s, 10, 64)]. *)
Fixpoint parseUint_loop (fn s0 s : string) (n : Z) : result Z :=
  match s with
  | EmptyString => Ok n
  | String c s' =>
      let d := digit_val c in
      if 9 <? d then syntaxError fn s0
      else if (2 ^ 64 - 1) / 10 + 1 <=? n then rangeError fn s0   (* n*base overflows *)
      else
        let n := n * 10 in
        let n1 := (n + d) mod 2 ^ 64 in
        if (n1 <? n) || (2 ^ 64 - 1 <? n1) then rangeError fn s0 (* n+d overflows *)
        else parseUint_loop fn s0 s' n1
  end.

Definition ParseUint (fn s0 s : string) : result Z :=
  if String.eqb s "" then syntaxError fn s0 else parseUint_loop fn s0 s 0.

(** [ParseInt(s, 10, 0)], with the function name [Atoi] puts in the
    error. *)
Definition ParseInt (fn s : string) : result Z :=
  if String.eqb s "" then syntaxError fn s
  else
    let neg := byte_is s 0 "-" in
    let s' := if has_sign s then slice s 1 (len s) else s in
    match ParseUint fn s s' with
    | Err e => Err e
    | Ok un =>
        let cutoff := 2 ^ 63 in
        if negb neg && (cutoff <=? un) then rangeError fn s
        else if neg && (cutoff <? un) then rangeError fn s
        else Ok (if neg then - un else un)
    end.

Definition Atoi (s : string) : result Z :=
  let sLen := len s in
  if (0 <? sLen) && (sLen <? 19) then
    (* Fast path for small integers that fit int type. *)
    let s' := if has_sign s then slice s 1 (len s) else s in
    if has_sign s && (len s' <? 1) then syntaxError "Atoi" s
    else match atoi_fast s' 0 with
         | None => syntaxError "Atoi" s
         | Some n => Ok (if byte_is s 0 "-" then - n else n)
         end
  else
    (* Slow path for invalid, big, or underscored integers. *)
    ParseInt "Atoi" s.

(** ** The program *)

Section Program.

Variable net : Network.

(** [func (d *Dialer) DialContext(ctx, network, address)]: the connect
    is given up at the earlier of the deadline of [ctx] and [Timeout]
    from now; a [Timeout] of zero means no timeout. *)
Definition Dialer_DialContext (d : Dialer) (ctx : Context) (network address : string)
  : M (result Conn) :=
  fun s =>
    let deadline :=
      earliest ctx (if d_Timeout d =? 0 then None else Some (clock s + d_Timeout d)) in
    let s1 := set_dials (dials s ++ [(network, address)]) s in
    match connect net (length (dials s)) network address with
    | Connects after c => await deadline (Some after) (Ok c) (Err ErrTimeout) s1
    | Refuses after e => await deadline (Some after) (Err e) (Err ErrTimeout) s1
    | NoAnswer => await deadline None (Err ErrTimeout) (Err ErrTimeout) s1
    end.

(** The [DialContext] closure of [createHTTPClient].  The host override
    it tests is the package constant [hostOverride]; it is a parameter
    here so that both branches of the test can be stated. *)
Definition dialContext (override prefix : string) (ctx : Context) (network addr : string)
  : M (result Conn) :=
  let rewritten : result string :=
    if negb (String.eqb override "") then
      match SplitHostPort addr with
      | Err err => Err err
      | Ok (_, port) => Ok (JoinHostPort override port)
      end
    else Ok addr in
  match rewritten with
  | Err err => ret (Err err)
  | Ok addr =>
      let d := {| d_Timeout := 10 * Second; KeepAlive := 30 * Second |} in
      do r <- Dialer_DialContext d ctx "tcp4" addr ;
      match r with
      | Ok conn =>
          run Printf (nl +:+ "%s 🔗 NEW CONNECTION established to %s") [VStr prefix; VStr addr] ;
          (* Wrap the connection to detect when it's closed *)
          ret (Ok (connWrapper_Conn {| cw_Conn := conn; addr := addr; prefix := prefix |}))
      | Err err => ret (Err err)
      end
  end.

(** [func createHTTPClient(prefix string) *http.Client] *)
Definition createHTTPClient (prefix : string) : Client :=
  let transport :=
    {| DialContext := dialContext hostOverride prefix;
       MaxIdleConns := 1;
       MaxIdleConnsPerHost := 1;
       MaxConnsPerHost := 1;
       IdleConnTimeout := 10 * Second;
       DisableKeepAlives := false;
       TLSHandshakeTimeout := 0;
       ResponseHeaderTimeout := 0 |} in
  {| c_Transport := transport; Timeout := 0 |}.

(** [func (c *Client) Get(url string)], after the documentation of
    [net/http]: a [Timeout] greater than zero bounds the whole request,
    connection time and the reading of the body included, and zero means
    no timeout; a connection is dialed through the transport's
    [DialContext] unless an idle one is reused. *)
Definition Client_Get (c : Client) (url : string) : M (result Response) :=
  do start <- time_Now ;
  let ctx : Context := if 0 <? Timeout c then Some (start + Timeout c) else None in
  do n <- (fun s => Some (gets s, set_gets (S (gets s)) s)) ;
  let ex := serve net n in
  do conn <- (if ex_pooled ex then ret (Ok tt)
              else do r <- DialContext (c_Transport c) ctx "tcp" (canonicalAddr url) ;
                   ret (match r with Ok _ => Ok tt | Err e => Err e end)) ;
  match conn with
  | Err e => ret (Err e)
  | Ok _ =>
      do now <- time_Now ;
      let rht := ResponseHeaderTimeout (c_Transport c) in
      let deadline := earliest ctx (if 0 <? rht then Some (now + rht) else None) in
      match ex_head ex with
      | HeadArrives after status header body =>
          do ontime <- await deadline (Some after) true false ;
          if ontime : bool then
            run (fun s => Some (tt, set_open_bodies (open_bodies s + 1) s)) ;
            ret (Ok (mkResponse status header body ctx))
          else ret (Err ErrTimeout)
      | HeadFails after e => await deadline (Some after) (Err e) (Err ErrTimeout)
      | HeadStalls => await deadline None (Err ErrTimeout) (Err ErrTimeout)
      end
  end.

(** [io.Copy(io.Discard, body)]: read until EOF or the first error;
    return the number of bytes read and that error ([nil] at EOF). *)
Fixpoint copy_discard (deadline : option Z) (body : Stream) (written : Z)
  : M (Z * option error) :=
  match body with
  | EOF => ret (written, None)
  | Chunk after data rest =>
      do ontime <- await deadline (Some after) true false ;
      if ontime : bool then copy_discard deadline rest (written + len data)
      else ret (written, Some ErrTimeout)
  | Fail after e _ => await deadline (Some after) (written, Some e) (written, Some ErrTimeout)
  | Stall _ => await deadline None (written, Some ErrTimeout) (written, Some ErrTimeout)
  end.

Definition io_Copy_Discard (resp : Response) : M (Z * option error) :=
  copy_discard (body_deadline resp) (Body resp) 0.

(** [resp.Body.Close()] *)
Definition Body_Close (resp : Response) : M unit :=
  fun s => Some (tt, set_open_bodies (open_bodies s - 1) s).

(** [func makeRequest(client *http.Client, prefix string)] *)
Definition makeRequest (client : Client) (prefix : string) : M unit :=
  do startTime <- time_Now ;
  let timestamp := Time_Format startTime in
  run Printf (nl +:+ "%s [%s] Start") [VStr prefix; VStr timestamp] ;

  do r <- Client_Get client targetURL ;
  do endTime <- time_Now ;
  let endTimestamp := Time_Format endTime in

  match r with
  | Err err =>
      Printf (nl +:+ "%s [%s] Error: %v") [VStr prefix; VStr endTimestamp; VErr err]
  | Ok resp =>
      (* Read headers and display status code and x-vercel-id *)
      let vercelID := Header_Get (Header resp) "x-vercel-id" in
      let vercelID := if String.eqb vercelID "" then "not found" else vercelID in

      (* Drain the response body to allow for connection reuse and count bytes *)
      do '(bytesRead, _) <- io_Copy_Discard resp ;
      let duration := Duration_Round (Time_Sub endTime startTime) Millisecond in
      run Printf (nl +:+ "%s [%s] End - Status: %d, Size: %d bytes, Duration: %s, x-vercel-id: %s")
          [VStr prefix; VStr endTimestamp; VInt (StatusCode resp); VInt bytesRead;
           VDur duration; VStr vercelID] ;
      (* defer resp.Body.Close() *)
      Body_Close resp
  end.

(** [time.NewTicker(d)] for a positive [d]: the ticker, as the time
    its next tick is due at; the first one is due [d] from now. *)
Definition NewTicker (d : Z) : M Z := fun s => Some (clock s + d, s).

(** [<-ticker.C] on a ticker of period [d] whose next tick is due at
    [when].  A tick that is not yet due is waited for.  A tick that is
    due is received at once; the channel keeps one tick, and those that
    came due behind it are dropped, as the runtime has it for a slow
    receiver ([t.when += t.period * (1 + delta/t.period)]).  Returns the
    time the next tick is due at. *)
Definition recv_tick (d when : Z) : M Z :=
  fun s =>
    if when <=? clock s
    then Some (when + d * (1 + (clock s - when) / d), s)
    else Some (when + d, set_clock when s).

(** The case of the [select] of a worker that is taken: the ticker
    case, or a value was received from the stop channel. *)
Inductive Ready : Type := Tick | Stop.

(** How far a worker got: it returned, or it is in its [select]. *)
Inductive WorkerEnd : Type := Returned | Selecting.

(** The main loop of [runWorker], along the cases its [select] takes. *)
Fixpoint worker_loop (client : Client) (prefix : string) (workerID : Z)
    (ticker : Z) (sched : list Ready) : M WorkerEnd :=
  match sched with
  | [] => ret Selecting
  | Tick :: sched' =>
      do ticker' <- recv_tick requestInterval ticker ;   (* case <-ticker.C: *)
      run makeRequest client prefix ;
      worker_loop client prefix workerID ticker' sched'
  | Stop :: _ =>                                         (* case <-stopChan: *)
      run Printf ("%s Worker %d stopping..." +:+ nl) [VStr prefix; VInt workerID] ;
      ret Returned
  end.

(** [func runWorker(workerID int, stopChan <-chan os.Signal)] *)
Definition runWorker (workerID : Z) (sched : list Ready) : M WorkerEnd :=
  let prefix := "[G" +:+ Itoa workerID +:+ "] " in   (* fmt.Sprintf("[G%d] ", workerID) *)
  let client := createHTTPClient prefix in

  (* Create a ticker for periodic requests *)
  do ticker <- NewTicker requestInterval ;

  run Printf ("%s Worker %d started" +:+ nl) [VStr prefix; VInt workerID] ;

  (* Make initial request *)
  run makeRequest client prefix ;

  (* Main loop *)
  worker_loop client prefix workerID ticker sched.

(** [go func(workerID int) { runWorker(workerID, stopChan) }(workerID)]:
    the new goroutine and the time it is started at. *)
Definition go_runWorker (workerID : Z) : M unit :=
  fun s => Some (tt, set_goroutines (goroutines s ++ [(workerID, clock s)]) s).

(** [for i := 0; i < numGoroutines; i++ { ... }] of [main], from the
    test of [i] on; [fuel] bounds the number of iterations. *)
Fixpoint start_workers (fuel : nat) (i numGoroutines : Z) : M unit :=
  if i <? numGoroutines then
    match fuel with
    | O => block
    | S fuel' =>
        run time_Sleep workerOffset ; (* Stagger start times *)
        run go_runWorker (wrap64 (i + 1)) ;
        start_workers fuel' (wrap64 (i + 1)) numGoroutines
    end
  else ret tt.

(** The command line arguments of [main]: the worker count. *)
Definition parse_args (Args : list string) : M Z :=
  match Args !! 1%nat with
  | Some arg =>                              (* len(os.Args) > 1 *)
      match Atoi arg with
      | Ok n =>
          if 0 <? n then ret n
          else
            run Printf ("Invalid number of goroutines: %s. Using default value of 1." +:+ nl)
                [VStr arg] ;
            ret 1
      | Err _ =>
          run Printf ("Invalid number of goroutines: %s. Using default value of 1." +:+ nl)
              [VStr arg] ;
          ret 1
      end
  | None => ret 1
  end.

(** [main] up to the receive from the stop channel. *)
Definition main_start (Args : list string) : M Z :=
  (* Parse command line arguments *)
  do numGoroutines <- parse_args Args ;

  run Printf ("Starting HTTP monitor for %s using host override %s with %d goroutine(s)" +:+ nl)
      [VStr targetURL; VStr hostOverride; VInt numGoroutines] ;
  run Println "Press Ctrl+C to stop..." ;

  (* Start worker goroutines *)
  run start_workers (Z.to_nat numGoroutines) 0 numGoroutines ;
  ret numGoroutines.

(** [<-stopChan]: resumed when a signal is on the channel, at [at_]
    ([None]: no signal ever comes). *)
Definition recv_stopChan (signal : option Z) : M unit :=
  fun s => match signal with
           | Some at_ => Some (tt, set_clock (Z.max (clock s) at_) s)
           | None => None
           end.

(** [func main()], for a process that the first signal reaches at
    [signal] and whose main goroutine is the one that receives it. *)
Definition main (Args : list string) (signal : option Z) : M unit :=
  run main_start Args ;
  (* Wait for shutdown signal, bail immediately *)
  run recv_stopChan signal ;
  Println (nl +:+ "Shutting down...").

End Program.

(** ** The lines of the program

    What the [Printf] calls of [connWrapper.Close] and [makeRequest]
    leave on standard output, as functions of their operands. *)

Definition closed_line (c : connWrapper) : Line :=
  mkLine (nl +:+ "%s 🔌 CONNECTION CLOSED to %s") [VStr (prefix c); VStr (addr c)].

Definition start_line (prefix : string) (startTime : Z) : Line :=
  mkLine (nl +:+ "%s [%s] Start") [VStr prefix; VStr (Time_Format startTime)].

Definition error_line (prefix : string) (endTime : Z) (err : error) : Line :=
  mkLine (nl +:+ "%s [%s] Error: %v") [VStr prefix; VStr (Time_Format endTime); VErr err].

Definition end_line (prefix : string) (endTime : Z) (status bytesRead duration : Z)
    (vercelID : string) : Line :=
  mkLine (nl +:+ "%s [%s] End - Status: %d, Size: %d bytes, Duration: %s, x-vercel-id: %s")
    [VStr prefix; VStr (Time_Format endTime); VInt status; VInt bytesRead;
     VDur duration; VStr vercelID].

(** The header value [makeRequest] shows. *)
Definition shown_vercelID (h : gmap string (list string)) : string :=
  if String.eqb (Header_Get h "x-vercel-id") "" then "not found"
  else Header_Get h "x-vercel-id".

(** The state [makeRequest] calls [client.Get] in: the start line is
    printed. *)
Definition started (prefix : string) (s : State) : State :=
  set_stdout (stdout s ++ [start_line prefix (clock s)]) s.

(** The address every connection for the target URL is dialed at. *)
Definition dialed_addr : string := "alias-icn1.vercel.com:443".

(** The banner of [main]. *)
Definition banner (n : Z) : list Line :=
  [mkLine ("Starting HTTP monitor for %s using host override %s with %d goroutine(s)" +:+ nl)
     [VStr targetURL; VStr hostOverride; VInt n];
   mkLine ("%s" +:+ nl) [VStr "Press Ctrl+C to stop..."]].

(** The line [main] prints for a worker count it does not accept. *)
Definition invalid_line (arg : string) : Line :=
  mkLine ("Invalid number of goroutines: %s. Using default value of 1." +:+ nl) [VStr arg].

(** A worker count [main] does not accept: not a number for
    [strconv.Atoi], or not positive. *)
Definition invalid_count (arg : string) : Prop :=
  match Atoi arg with
  | Ok n => n <= 0
  | Err _ => True
  end.

(** Workers [i+1], ..., [i+count], one [workerOffset] after the other,
    the first one [workerOffset] after [t0]: their identities and the
    times they are started at. *)
Definition staggered (t0 i : Z) (count : nat) : list (Z * Z) :=
  map (fun j : nat => (i + Z.of_nat j, t0 + Z.of_nat j * workerOffset)) (seq 1 count).

(** ** The goroutines and the stop channel

    [main] makes one channel, [stopChan := make(chan os.Signal, 1)],
    registers it with [signal.Notify], hands it to every worker and
    receives from it itself.  The channel is never closed.  The
    goroutines are followed here at the grain of the shutdown protocol:
    a probe of a worker is one step that leaves one outcome line. *)

Inductive Signal : Type := Interrupt | SIGTERM.

(** Where [main] is. *)
Inductive MainPC : Type :=
| MainLoop (i : Z)   (* in the [for] loop, about to test [i < numGoroutines] *)
| MainWait           (* blocked in [<-stopChan] *)
| MainExit.          (* [main] returned: the process and all its goroutines are gone *)

(** Where a worker is. *)
Inductive WorkerPC : Type :=
| WStart             (* started, its initial request not yet made *)
| WSelect            (* in the [select] of its main loop *)
| WReturned.         (* it printed its stopping line and returned *)

Inductive Event : Type :=
| EvOutcome (workerID : Z)    (* a probe of that worker left its outcome line *)
| EvStopping (workerID : Z)   (* "Worker %d stopping..." *)
| EvShutdown.                 (* "Shutting down..." *)

Record System : Type := mkSystem {
  numGoroutines : Z;
  stopChan : list Signal;            (* the buffer of the channel, capacity 1 *)
  main_pc : MainPC;
  workers : gmap Z WorkerPC;         (* by workerID *)
  events : list Event                (* oldest first *)
}.

(** What can happen next. *)
Inductive Action : Type :=
| Spawn                       (* main: one turn of the [for] loop *)
| LoopEnd                     (* main: [i < numGoroutines] fails *)
| MainRecv                    (* main: [<-stopChan] receives a value *)
| InitialRequest (w : Z)      (* worker [w]: started line and initial request *)
| TickCase (w : Z)            (* worker [w]: [case <-ticker.C] *)
| StopCase (w : Z)            (* worker [w]: [case <-stopChan] *)
| Deliver (sig : Signal).     (* the runtime: a registered signal arrives *)

(** [signal.Notify] does not block sending to the channel: a signal
    that finds the buffer full is dropped. *)
Definition notify (sig : Signal) (buf : list Signal) : list Signal :=
  if (length buf <? 1)%nat then buf ++ [sig] else buf.

(** One step; [None] when the action is not possible in that state. *)
Definition step (a : Action) (s : System) : option System :=
  let n := numGoroutines s in
  match main_pc s, a with
  | MainExit, _ => None
  | MainLoop i, Spawn =>
      if i <? n then
        Some (mkSystem n (stopChan s) (MainLoop (wrap64 (i + 1)))
                (<[wrap64 (i + 1) := WStart]> (workers s)) (events s))
      else None
  | MainLoop i, LoopEnd =>
      if i <? n then None
      else Some (mkSystem n (stopChan s) MainWait (workers s) (events s))
  | MainWait, MainRecv =>
      match stopChan s with
      | _ :: buf => Some (mkSystem n buf MainExit (workers s) (events s ++ [EvShutdown]))
      | [] => None
      end
  | _, InitialRequest w =>
      match workers s !! w with
      | Some WStart =>
          Some (mkSystem n (stopChan s) (main_pc s) (<[w := WSelect]> (workers s))
                  (events s ++ [EvOutcome w]))
      | _ => None
      end
  | _, TickCase w =>
      match workers s !! w with
      | Some WSelect =>
          Some (mkSystem n (stopChan s) (main_pc s) (workers s) (events s ++ [EvOutcome w]))
      | _ => None
      end
  | _, StopCase w =>
      match workers s !! w, stopChan s with
      | Some WSelect, _ :: buf =>
          Some (mkSystem n buf (main_pc s) (<[w := WReturned]> (workers s))
                  (events s ++ [EvStopping w]))
      | _, _ => None
      end
  | _, Deliver sig =>
      Some (mkSystem n (notify sig (stopChan s)) (main_pc s) (workers s) (events s))
  | _, _ => None
  end.

(** A run: the actions one after the other. *)
Fixpoint exec (acts : list Action) (s : System) : option System :=
  match acts with
  | [] => Some s
  | a :: acts' =>
      match step a s with
      | Some s' => exec acts' s'
      | None => None
      end
  end.

(** The process when [main] enters its loop. *)
Definition boot_system (n : Z) : System := mkSystem n [] (MainLoop 0) ∅ [].

Definition is_deliver (a : Action) : bool :=
  match a with Deliver _ => true | _ => false end.

(** A receive from the stop channel leaves one of these events. *)
Definition is_receive (e : Event) : bool :=
  match e with EvStopping _ | EvShutdown => true | EvOutcome _ => false end.

(** The number of signals that arrive in a run, and the number of
    receives from the stop channel that have happened. *)
Definition delivered (acts : list Action) : nat := length (List.filter is_deliver acts).
Definition received (s : System) : nat := length (List.filter is_receive (events s)).

(** A worker that returned has printed its stopping line, and [main]
    when it returned its shutdown line. *)
Definition logged (s : System) : Prop :=
  (forall w, workers s !! w = Some WReturned -> In (EvStopping w) (events s))
  /\ (main_pc s = MainExit -> In EvShutdown (events s)).

(** Two workers are in their loops and [main] waits; then one signal
    arrives, and worker 1 is the one whose [select] receives it. *)
Definition one_signal_run : list Action :=
  [Spawn; InitialRequest 1; Spawn; InitialRequest 2; LoopEnd; Deliver Interrupt; StopCase 1].

(** ** Environments and states to run the program on *)

(** The state of a process started at [t0]. *)
Definition boot (t0 : Z) : State := mkState t0 [] [] 0 [] 0 [].

(** A TCP connection with descriptor [fd] to a peer that accepts what
    is written and sends nothing.  Closing it twice is an error. *)
Definition tcpConn (fd : nat) (remote : string) : Conn :=
  {| Read := fun _ => ret ("", None);
     Write := fun data => ret (len data, None);
     Close := fun s =>
       if bool_decide (fd ∈ closed s)
       then Some (Some (OpError "close" "use of closed network connection"), s)
       else Some (None, set_closed (fd :: closed s) s);
     RemoteAddr := remote |}.

(** A network whose every connect is accepted after 20 ms and whose
    every exchange needs a new connection and meets [head]. *)
Definition net_with (head : HeadOutcome) : Network :=
  {| connect := fun n _ address => Connects (20 * Millisecond) (tcpConn n address);
     serve := fun _ => mkExchange false head |}.

(** A network on which no connect is ever answered. *)
Definition net_silent : Network :=
  {| connect := fun _ _ _ => NoAnswer;
     serve := fun _ => mkExchange false HeadStalls |}.

Definition vercel_header (v : string) : gmap string (list string) :=
  {[ "X-Vercel-Id" := [v] ]}.

(** The response head comes 80 ms after the connection, the five bytes
    of the body 900 ms later. *)
Definition net_slow_body : Network :=
  net_with (HeadArrives (80 * Millisecond) 200 (vercel_header "icn1::x")
              (Chunk (900 * Millisecond) "hello" EOF)).

(** The connection breaks after three of the five bytes of the body. *)
Definition net_broken_body : Network :=
  net_with (HeadArrives (80 * Millisecond) 200 (vercel_header "icn1::x")
              (Chunk 0 "abc" (Fail 0 ErrUnexpectedEOF "de"))).

(** The response has the header, with an empty value. *)
Definition net_empty_header : Network :=
  net_with (HeadArrives (80 * Millisecond) 200 (vercel_header "")
              (Chunk 0 "hello" EOF)).

(** The server accepts the connection and never answers the request. *)
Definition net_stalled : Network := net_with HeadStalls.

(** ** More lines, and measures of a run *)

(** The line of the dial closure for a new connection. *)
Definition conn_line (prefix addr : string) : Line :=
  mkLine (nl +:+ "%s 🔗 NEW CONNECTION established to %s") [VStr prefix; VStr addr].

(** The prefix [runWorker] makes for a worker: [fmt.Sprintf("[G%d] ", workerID)]. *)
Definition worker_prefix (workerID : Z) : string := "[G" +:+ Itoa workerID +:+ "] ".

Definition worker_started_line (workerID : Z) : Line :=
  mkLine ("%s Worker %d started" +:+ nl) [VStr (worker_prefix workerID); VInt workerID].

Definition worker_stopping_line (workerID : Z) : Line :=
  mkLine ("%s Worker %d stopping..." +:+ nl) [VStr (worker_prefix workerID); VInt workerID].

(** The last line of [main]. *)
Definition shutdown_line : Line :=
  mkLine ("%s" +:+ nl) [VStr (nl +:+ "Shutting down...")].

(** The outcome line of a probe of the worker with that prefix: an end
    line or an error line. *)
Definition outcome_line (prefix : string) (l : Line) : Prop :=
  (exists endTime status bytesRead duration vercelID,
      l = end_line prefix endTime status bytesRead duration vercelID)
  \/ (exists endTime err, l = error_line prefix endTime err).

(** The ticks a worker serves: those its [select] takes before it
    takes the stop case. *)
Fixpoint ticks_served (sched : list Ready) : nat :=
  match sched with
  | Tick :: sched' => S (ticks_served sched')
  | _ => O
  end.

(** The [select] takes the stop case at some point. *)
Fixpoint stops (sched : list Ready) : bool :=
  match sched with
  | [] => false
  | Stop :: _ => true
  | Tick :: sched' => stops sched'
  end.

(** The workers a process with [n] of them has, by the place [main] is
    at: those started so far, which are all of them once the loop is
    left. *)
Definition workers_so_far (n : Z) (s : System) : Prop :=
  numGoroutines s = n
  /\ match main_pc s with
     | MainLoop i => 0 <= i <= n /\ forall w, is_Some (workers s !! w) <-> 1 <= w <= i
     | _ => forall w, is_Some (workers s !! w) <-> 1 <= w <= n
     end.

(** A worker is in or past its loop only after a probe of its own, and
    its stopping line is the last thing it leaves: it comes after a
    probe, the worker has returned, and no probe of it follows. *)
Definition stops_last (s : System) : Prop :=
  (forall w, workers s !! w = Some WSelect \/ workers s !! w = Some WReturned ->
             In (EvOutcome w) (events s))
  /\ (forall w before after, events s = before ++ EvStopping w :: after ->
         In (EvOutcome w) before
         /\ workers s !! w = Some WReturned
         /\ ~ In (EvOutcome w) after).

(** * Properties *)

(** ** The monad and the clock *)

Lemma bind_Some {A B} (m : M A) (k : A -> M B) s a s' :
  m s = Some (a, s') -> bind m k s = k a s'.
Proof. intros H. unfold bind. now rewrite H. Qed.

Lemma bind_None {A B} (m : M A) (k : A -> M B) s :
  m s = None -> bind m k s = None.
Proof. intros H. unfold bind. now rewrite H. Qed.

Lemma bind_inv {A B} (m : M A) (k : A -> M B) s b s2 :
  bind m k s = Some (b, s2) ->
  exists a s1, m s = Some (a, s1) /\ k a s1 = Some (b, s2).
Proof.
  unfold bind. destruct (m s) as [[a s1]|] eqn:E; [|discriminate].
  intros H. now exists a, s1.
Qed.

(** Waiting changes nothing but the clock, which it moves forward. *)
Lemma await_inv {A} deadline after (ontime late : A) s r s' :
  await deadline after ontime late s = Some (r, s') ->
  s' = set_clock (clock s') s /\ clock s <= clock s' /\ (r = ontime \/ r = late).
Proof.
  unfold await.
  destruct after as [d|], deadline as [t|]; try discriminate;
    try destruct (Z.leb_spec (clock s + Z.max 0 d) t);
    intros [= <- <-]; destruct s; cbn; (split; [reflexivity|]); split; auto; lia.
Qed.

(** With a deadline, a wait ends. *)
Lemma await_deadline {A} t after (ontime late : A) s :
  exists r s', await (Some t) after ontime late s = Some (r, s').
Proof.
  unfold await. destruct after as [d|]; [destruct (_ <=? _)|]; eauto.
Qed.

(** Without a deadline, a wait ends when what is awaited happens. *)
Lemma await_no_deadline {A} d (ontime late : A) s :
  await None (Some d) ontime late s = Some (ontime, set_clock (clock s + Z.max 0 d) s).
Proof. reflexivity. Qed.

Lemma earliest_Some_r a y : exists t, earliest a (Some y) = Some t.
Proof. destruct a; cbn; eauto. Qed.

(** ** The connection wrapper *)

(** C4.  A call of the wrapper's [Close] prints one line, which names
    the worker (its prefix) and the remote address, and then is the
    [Close] of the wrapped connection: the same effect on the state
    that call has, and the error it returns, unchanged (also when it
    never returns). *)
Theorem connWrapper_Close_forwards (c : connWrapper) (s : State) :
  connWrapper_Close c s
  = Close (cw_Conn c) (set_stdout (stdout s ++ [closed_line c]) s)
  /\ operands (closed_line c) = [VStr (prefix c); VStr (addr c)].
Proof. split; reflexivity. Qed.

(** When the wrapped connection prints nothing in its [Close], the
    line of the wrapper is the one line the call leaves, and the error
    is the one the wrapped connection returns. *)
Lemma connWrapper_Close_one_line (c : connWrapper) (s s' : State) (e : option error) :
  (forall s0 e0 s0', Close (cw_Conn c) s0 = Some (e0, s0') -> stdout s0' = stdout s0) ->
  connWrapper_Close c s = Some (e, s') ->
  stdout s' = stdout s ++ [closed_line c]
  /\ Close (cw_Conn c) (set_stdout (stdout s ++ [closed_line c]) s) = Some (e, s').
Proof.
  intros Hsilent H.
  change (Close (cw_Conn c) (set_stdout (stdout s ++ [closed_line c]) s) = Some (e, s')) in H.
  split; [|exact H]. now apply Hsilent in H.
Qed.

(** The other methods of the wrapper are those of the wrapped
    connection. *)
Lemma connWrapper_promotes (c : connWrapper) :
  Read (connWrapper_Conn c) = Read (cw_Conn c)
  /\ Write (connWrapper_Conn c) = Write (cw_Conn c)
  /\ RemoteAddr (connWrapper_Conn c) = RemoteAddr (cw_Conn c)
  /\ Close (connWrapper_Conn c) = connWrapper_Close c.
Proof. repeat split. Qed.

(** On a TCP connection: the first [Close] prints the line, closes the
    socket and returns [nil]; a second one prints the line again and
    returns the error of the socket. *)
Example connWrapper_Close_tcp :
  let c := mkConnWrapper (tcpConn 7 "192.0.2.1:443") "192.0.2.1:443" "[G1] " in
  exists s1 s2 e,
    connWrapper_Close c (boot 0) = Some (None, s1)
    /\ stdout s1 = [closed_line c] /\ closed s1 = [7%nat]
    /\ connWrapper_Close c s1 = Some (Some e, s2)
    /\ Close (tcpConn 7 "192.0.2.1:443") s1 = Some (Some e, s1)
    /\ stdout s2 = [closed_line c; closed_line c].
Proof. cbv zeta. do 3 eexists. repeat split; vm_compute; reflexivity. Qed.

(** ** The dial of the client *)

Section Dial.

Variable net : Network.

(** A dial with a timeout returns, having dialed once, and changes
    nothing but the clock and the list of dials. *)
Lemma Dialer_DialContext_returns (d : Dialer) ctx network address s :
  d_Timeout d <> 0 ->
  exists r s',
    Dialer_DialContext net d ctx network address s = Some (r, s')
    /\ dials s' = dials s ++ [(network, address)]
    /\ stdout s' = stdout s
    /\ clock s <= clock s'.
Proof.
  intros Hd. unfold Dialer_DialContext.
  destruct (Z.eqb_spec (d_Timeout d) 0) as [|_]; [contradiction|].
  destruct (earliest_Some_r ctx (clock s + d_Timeout d)) as [t ->].
  set (s1 := set_dials _ s).
  assert (Hw : forall (after : option Z) (a b : result Conn),
             exists r s', await (Some t) after a b s1 = Some (r, s')
                          /\ dials s' = dials s ++ [(network, address)]
                          /\ stdout s' = stdout s /\ clock s <= clock s').
  { intros after a b. destruct (await_deadline t after a b s1) as (r & s' & E).
    exists r, s'. split; [exact E|].
    apply await_inv in E as (-> & Hc & _). cbn in *. auto. }
  destruct (connect net _ network address); apply Hw.
Qed.

(** C1.  With a non-empty host override, a dial for [addr] either
    fails to split [addr] into host and port, and then returns that
    error, no connection, and has dialed nothing; or it dials exactly
    once, over "tcp4", the override host joined with the port of
    [addr], and returns. *)
Theorem dialContext_override (override prefix : string) (ctx : Context)
    (network addr : string) (s : State) :
  override <> "" ->
  match SplitHostPort addr with
  | Err err => dialContext net override prefix ctx network addr s = Some (Err err, s)
  | Ok (_, port) =>
      exists r s',
        dialContext net override prefix ctx network addr s = Some (r, s')
        /\ dials s' = dials s ++ [("tcp4", JoinHostPort override port)]
  end.
Proof.
  intros Hne. unfold dialContext.
  destruct (String.eqb_spec override "") as [|_]; [contradiction|]. cbn [negb].
  destruct (SplitHostPort addr) as [[host port]|err]; [|reflexivity].
  set (d := {| d_Timeout := _ |}).
  destruct (Dialer_DialContext_returns d ctx "tcp4" (JoinHostPort override port) s)
    as (r & s' & E & Hd & _); [discriminate|].
  rewrite (bind_Some _ _ _ _ _ E).
  destruct r as [conn|err]; cbn; eauto.
Qed.

(** Without an override the address is dialed as it is. *)
Lemma dialContext_no_override (prefix : string) (ctx : Context)
    (network addr : string) (s : State) :
  exists r s',
    dialContext net "" prefix ctx network addr s = Some (r, s')
    /\ dials s' = dials s ++ [("tcp4", addr)].
Proof.
  unfold dialContext. cbn [String.eqb negb].
  set (d := {| d_Timeout := _ |}).
  destruct (Dialer_DialContext_returns d ctx "tcp4" addr s)
    as (r & s' & E & Hd & _); [discriminate|].
  rewrite (bind_Some _ _ _ _ _ E).
  destruct r as [conn|err]; cbn; eauto.
Qed.

(** The client of [createHTTPClient] dials with the package's
    override, which is not empty and has no colon: the address dialed
    is the override, a colon and the port. *)
Lemma createHTTPClient_dial (prefix : string) :
  DialContext (c_Transport (createHTTPClient net prefix)) = dialContext net hostOverride prefix
  /\ hostOverride <> ""
  /\ forall port, JoinHostPort hostOverride port = hostOverride +:+ ":" +:+ port.
Proof. repeat split. discriminate. Qed.

End Dial.

(** The dial for the target URL goes to port 443 of the override. *)
Lemma dialContext_override_witness :
  hostOverride <> ""
  /\ exists r s',
       dialContext net_silent hostOverride "[G1] " None "tcp"
         "aga-degradation.pacnw.xyz:443" (boot 0) = Some (r, s')
       /\ dials s' = dials (boot 0) ++ [("tcp4", JoinHostPort hostOverride "443")].
Proof.
  split; [discriminate|].
  exact (dialContext_override net_silent hostOverride "[G1] " None "tcp"
           "aga-degradation.pacnw.xyz:443" (boot 0) ltac:(discriminate)).
Defined.

(** A dial that is accepted: the address dialed and the one in the
    connection line are the override with the port of the target. *)
Example dialContext_connects :
  exists conn s',
    dialContext net_slow_body hostOverride "[G1] " None "tcp"
      "aga-degradation.pacnw.xyz:443" (boot 0) = Some (Ok conn, s')
    /\ dials s' = [("tcp4", "alias-icn1.vercel.com:443")]
    /\ stdout s' = [mkLine (nl +:+ "%s 🔗 NEW CONNECTION established to %s")
                      [VStr "[G1] "; VStr "alias-icn1.vercel.com:443"]]
    /\ clock s' = 20 * Millisecond.
Proof. do 2 eexists. split; [vm_compute; reflexivity|]. repeat split. Qed.

(** ** The prober *)

Lemma len_append (a b : string) : len (a +:+ b) = len a + len b.
Proof.
  unfold len. induction a as [|c a IH].
  - change ("" +:+ b) with b. cbn [String.length]. lia.
  - change (String c a +:+ b) with (String c (a +:+ b)). cbn [String.length]. lia.
Qed.

Lemma len_nonneg (a : string) : 0 <= len a.
Proof. unfold len. lia. Qed.

Section Prober.

Variable net : Network.

(** Reading a body changes nothing but the clock, which it moves
    forward; the count grows by at most the length of the body, and by
    exactly that when the copy ends without an error, which it does
    only at the end of the body. *)
Lemma copy_discard_inv deadline body : forall written s n e s',
  copy_discard deadline body written s = Some ((n, e), s') ->
  s' = set_clock (clock s') s /\ clock s <= clock s'
  /\ written <= n <= written + len (body_bytes body)
  /\ (e = None -> n = written + len (body_bytes body) /\ complete body = true).
Proof.
  induction body as [|after data rest IH|after err unread|unread];
    intros written s n e s' H; cbn [copy_discard body_bytes complete] in *.
  - injection H as <- <- <-. change (len "") with 0.
    split; [destruct s; reflexivity|]. repeat split; lia.
  - apply bind_inv in H as (ontime & s1 & Hw & H).
    apply await_inv in Hw as (E1 & Hc1 & _).
    pose proof (len_append data (body_bytes rest)) as Hlen.
    pose proof (len_nonneg data). pose proof (len_nonneg (body_bytes rest)).
    destruct ontime.
    + apply IH in H as (E2 & Hc2 & Hn & He).
      split; [|split; [lia|split; [lia|]]].
      * rewrite E2, E1. destruct s; reflexivity.
      * intros ->. destruct He as [-> ->]; [reflexivity|]. split; [lia|reflexivity].
    + injection H as <- <- <-.
      split; [exact E1|]. split; [exact Hc1|]. split; [lia|discriminate].
  - apply await_inv in H as (E & Hc & Hr).
    pose proof (len_nonneg unread).
    split; [exact E|]. split; [exact Hc|].
    destruct Hr as [[= -> ->]|[= -> ->]]; (split; [lia|discriminate]).
  - apply await_inv in H as (E & Hc & Hr).
    pose proof (len_nonneg unread).
    split; [exact E|]. split; [exact Hc|].
    destruct Hr as [[= -> ->]|[= -> ->]]; (split; [lia|discriminate]).
Qed.

(** Without a deadline, a body whose transfer is complete is read to
    its end. *)
Lemma copy_discard_complete body : forall written s,
  complete body = true ->
  exists s', copy_discard None body written s
             = Some ((written + len (body_bytes body), None), s').
Proof.
  induction body as [|after data rest IH|after err unread|unread];
    intros written s Hc; cbn [copy_discard body_bytes complete] in *; try discriminate.
  - exists s. unfold ret. cbn. do 3 f_equal. unfold len. cbn. lia.
  - rewrite (bind_Some _ _ _ _ _ (await_no_deadline after true false s)).
    destruct (IH (written + len data) (set_clock (clock s + Z.max 0 after) s) Hc) as [s' ->].
    exists s'. do 3 f_equal. rewrite len_append. lia.
Qed.

(** What a probe does when [client.Get] returns a response and the
    body is read: one end line, with the time [Get] returned at. *)
Lemma makeRequest_Ok (client : Client) (prefix : string) s resp s1 n e s2 :
  Client_Get net client targetURL (started prefix s) = Some (Ok resp, s1) ->
  io_Copy_Discard resp s1 = Some ((n, e), s2) ->
  makeRequest net client prefix s
  = Some (tt, set_open_bodies (open_bodies s2 - 1)
                (set_stdout
                   (stdout s2 ++ [end_line prefix (clock s1) (StatusCode resp) n
                                    (Duration_Round (Time_Sub (clock s1) (clock s)) Millisecond)
                                    (shown_vercelID (Header resp))]) s2)).
Proof.
  intros HG HC. unfold makeRequest.
  unfold bind at 1. cbn [time_Now].
  unfold bind at 1. cbn [Printf]. fold (start_line prefix (clock s)). fold (started prefix s).
  rewrite (bind_Some _ _ _ _ _ HG).
  unfold bind at 1. cbn [time_Now].
  rewrite (bind_Some _ _ _ _ _ HC).
  reflexivity.
Qed.

(** When [client.Get] returns an error: one error line. *)
Lemma makeRequest_Err (client : Client) (prefix : string) s err s1 :
  Client_Get net client targetURL (started prefix s) = Some (Err err, s1) ->
  makeRequest net client prefix s
  = Some (tt, set_stdout (stdout s1 ++ [error_line prefix (clock s1) err]) s1).
Proof.
  intros HG. unfold makeRequest.
  unfold bind at 1. cbn [time_Now].
  unfold bind at 1. cbn [Printf]. fold (start_line prefix (clock s)). fold (started prefix s).
  rewrite (bind_Some _ _ _ _ _ HG).
  reflexivity.
Qed.

(** When [client.Get] never returns, neither does the probe. *)
Lemma makeRequest_blocks (client : Client) (prefix : string) s :
  Client_Get net client targetURL (started prefix s) = None ->
  makeRequest net client prefix s = None.
Proof.
  intros HG. unfold makeRequest.
  unfold bind at 1. cbn [time_Now].
  unfold bind at 1. cbn [Printf]. fold (start_line prefix (clock s)). fold (started prefix s).
  now rewrite (bind_None _ _ _ HG).
Qed.

End Prober.

(** C2, as the code has it.  A probe whose [client.Get] returns a
    response reads the clock before the start line and the [Get], and
    once more when the [Get] has returned, before the body is read: the
    end line carries that second time, and as duration the difference
    of the two, rounded to a millisecond.  The time the reading of the
    body takes, from [clock s1] to [clock s2], is not part of it. *)
Theorem makeRequest_end_time (net : Network) (client : Client) (prefix : string)
    s resp s1 n e s2 :
  Client_Get net client targetURL (started prefix s) = Some (Ok resp, s1) ->
  io_Copy_Discard resp s1 = Some ((n, e), s2) ->
  exists s3,
    makeRequest net client prefix s = Some (tt, s3)
    /\ clock (started prefix s) = clock s
    /\ stdout (started prefix s) = stdout s ++ [start_line prefix (clock s)]
    /\ stdout s3
       = stdout s2 ++ [end_line prefix (clock s1) (StatusCode resp) n
                         (Duration_Round (Time_Sub (clock s1) (clock s)) Millisecond)
                         (shown_vercelID (Header resp))]
    /\ clock s1 <= clock s2
    /\ clock s3 = clock s2.
Proof.
  intros HG HC. eexists. split; [exact (makeRequest_Ok net client prefix _ _ _ _ _ _ HG HC)|].
  apply copy_discard_inv in HC as (_ & Hc & _).
  repeat split. exact Hc.
Qed.

Lemma makeRequest_end_time_witness :
  exists s3,
    makeRequest net_slow_body (createHTTPClient net_slow_body "[G1] ") "[G1] " (boot 0)
    = Some (tt, s3)
    /\ last (stdout s3)
       = Some (end_line "[G1] " (100 * Millisecond) 200 5 (100 * Millisecond) "icn1::x")
    /\ clock s3 = 1000 * Millisecond.
Proof.
  destruct (makeRequest_end_time net_slow_body (createHTTPClient net_slow_body "[G1] ")
              "[G1] " (boot 0)
              (mkResponse 200 (vercel_header "icn1::x") (Chunk (900 * Millisecond) "hello" EOF) None)
              (mkState (100 * Millisecond)
                 [start_line "[G1] " 0;
                  mkLine (nl +:+ "%s 🔗 NEW CONNECTION established to %s")
                    [VStr "[G1] "; VStr "alias-icn1.vercel.com:443"]]
                 [("tcp4", "alias-icn1.vercel.com:443")] 1 [] 1 [])
              5 None
              (mkState (1000 * Millisecond)
                 [start_line "[G1] " 0;
                  mkLine (nl +:+ "%s 🔗 NEW CONNECTION established to %s")
                    [VStr "[G1] "; VStr "alias-icn1.vercel.com:443"]]
                 [("tcp4", "alias-icn1.vercel.com:443")] 1 [] 1 []))
    as (s3 & E & _ & _ & Hout & _ & Hclock).
  - vm_compute. reflexivity.
  - vm_compute. reflexivity.
  - exists s3. split; [exact E|]. split.
    + rewrite Hout. rewrite last_snoc. vm_compute. reflexivity.
    + rewrite Hclock. reflexivity.
Defined.

(** C2, as the claim has it, fails: on a network where the head of the
    response comes 100 ms after the start and the body is drained
    900 ms later, the end line carries the time 100 ms and the duration
    100 ms, not the time the body was drained at, one second, and the
    duration up to it. *)
Lemma makeRequest_end_time_counterexample :
  exists s3,
    makeRequest net_slow_body (createHTTPClient net_slow_body "[G1] ") "[G1] " (boot 0)
    = Some (tt, s3)
    /\ clock s3 = 1000 * Millisecond
    /\ last (stdout s3)
       = Some (end_line "[G1] " (100 * Millisecond) 200 5 (100 * Millisecond) "icn1::x")
    /\ last (stdout s3)
       <> Some (end_line "[G1] " (clock s3) 200 5
                  (Duration_Round (Time_Sub (clock s3) (clock (boot 0))) Millisecond)
                  "icn1::x").
Proof.
  eexists. split; [vm_compute; reflexivity|].
  split; [reflexivity|]. split; [vm_compute; reflexivity|].
  vm_compute. discriminate.
Qed.

(** C5, as the code has it.  The size in the end line is the number of
    bytes [io.Copy] read, whose error the code discards: at most the
    length of the body, and the length of the body when the copy ended
    without an error, which it does only when the body was read to its
    end. *)
Theorem makeRequest_size (net : Network) (client : Client) (prefix : string)
    s resp s1 n e s2 :
  Client_Get net client targetURL (started prefix s) = Some (Ok resp, s1) ->
  io_Copy_Discard resp s1 = Some ((n, e), s2) ->
  exists s3 endTime duration,
    makeRequest net client prefix s = Some (tt, s3)
    /\ last (stdout s3)
       = Some (end_line prefix endTime (StatusCode resp) n duration
                 (shown_vercelID (Header resp)))
    /\ 0 <= n <= len (body_bytes (Body resp))
    /\ (e = None -> n = len (body_bytes (Body resp)) /\ complete (Body resp) = true).
Proof.
  intros HG HC. do 3 eexists.
  split; [exact (makeRequest_Ok net client prefix _ _ _ _ _ _ HG HC)|].
  split; [cbn [stdout set_stdout set_open_bodies]; apply last_snoc|].
  apply copy_discard_inv in HC as (_ & _ & Hn & He).
  split; [lia|]. intros ->. destruct He as [-> ->]; [reflexivity|]. split; [lia|reflexivity].
Qed.

(** A body whose transfer is complete is counted in full when the
    request has no deadline, as those of [createHTTPClient] have
    none. *)
Lemma makeRequest_size_complete (net : Network) (client : Client) (prefix : string)
    s resp s1 :
  Client_Get net client targetURL (started prefix s) = Some (Ok resp, s1) ->
  body_deadline resp = None ->
  complete (Body resp) = true ->
  exists s3 endTime duration,
    makeRequest net client prefix s = Some (tt, s3)
    /\ last (stdout s3)
       = Some (end_line prefix endTime (StatusCode resp) (len (body_bytes (Body resp)))
                 duration (shown_vercelID (Header resp))).
Proof.
  intros HG Hd Hc.
  destruct (copy_discard_complete (Body resp) 0 s1 Hc) as [s2 HC].
  assert (HC' : io_Copy_Discard resp s1 = Some ((len (body_bytes (Body resp)), None), s2)).
  { unfold io_Copy_Discard. rewrite Hd. exact HC. }
  do 3 eexists.
  split; [exact (makeRequest_Ok net client prefix _ _ _ _ _ _ HG HC')|].
  cbn [stdout set_stdout set_open_bodies]. apply last_snoc.
Qed.

Lemma makeRequest_size_witness :
  exists s3 endTime duration,
    makeRequest net_broken_body (createHTTPClient net_broken_body "[G1] ") "[G1] " (boot 0)
    = Some (tt, s3)
    /\ last (stdout s3) = Some (end_line "[G1] " endTime 200 3 duration "icn1::x").
Proof.
  destruct (makeRequest_size net_broken_body (createHTTPClient net_broken_body "[G1] ")
              "[G1] " (boot 0)
              (mkResponse 200 (vercel_header "icn1::x")
                 (Chunk 0 "abc" (Fail 0 ErrUnexpectedEOF "de")) None)
              (mkState (100 * Millisecond)
                 [start_line "[G1] " 0;
                  mkLine (nl +:+ "%s 🔗 NEW CONNECTION established to %s")
                    [VStr "[G1] "; VStr "alias-icn1.vercel.com:443"]]
                 [("tcp4", "alias-icn1.vercel.com:443")] 1 [] 1 [])
              3 (Some ErrUnexpectedEOF)
              (mkState (100 * Millisecond)
                 [start_line "[G1] " 0;
                  mkLine (nl +:+ "%s 🔗 NEW CONNECTION established to %s")
                    [VStr "[G1] "; VStr "alias-icn1.vercel.com:443"]]
                 [("tcp4", "alias-icn1.vercel.com:443")] 1 [] 1 []))
    as (s3 & endTime & duration & E & Hlast & _).
  - vm_compute. reflexivity.
  - vm_compute. reflexivity.
  - exists s3, endTime, duration. split; [exact E|exact Hlast].
Defined.

(** C5, as the claim has it, fails: [client.Get] returns a response
    whose body is five bytes long; the connection breaks after three
    of them, the read fails with [io.ErrUnexpectedEOF], and the end
    line says 3 bytes. *)
Lemma makeRequest_size_counterexample :
  exists resp s1 s3,
    Client_Get net_broken_body (createHTTPClient net_broken_body "[G1] ") targetURL
      (started "[G1] " (boot 0)) = Some (Ok resp, s1)
    /\ len (body_bytes (Body resp)) = 5
    /\ makeRequest net_broken_body (createHTTPClient net_broken_body "[G1] ") "[G1] " (boot 0)
       = Some (tt, s3)
    /\ last (stdout s3)
       = Some (end_line "[G1] " (100 * Millisecond) 200 3 (100 * Millisecond) "icn1::x")
    /\ 3 <> len (body_bytes (Body resp)).
Proof.
  do 3 eexists. split; [vm_compute; reflexivity|].
  split; [reflexivity|]. split; [vm_compute; reflexivity|].
  split; [vm_compute; reflexivity|]. vm_compute. discriminate.
Qed.

(** What [Header.Get] finds for the key of the program. *)
Lemma Header_Get_vercel (h : gmap string (list string)) :
  Header_Get h "x-vercel-id"
  = match h !! "X-Vercel-Id" with
    | Some (v :: _) => v
    | _ => ""
    end.
Proof. reflexivity. Qed.

(** C8, as the code has it.  The end line of a probe whose
    [client.Get] returns a response carries the first value of the
    header X-Vercel-Id, and "not found" when the response has no such
    header or when that value is empty; it is an end line in every
    case, not an error line. *)
Theorem makeRequest_vercelID (net : Network) (client : Client) (prefix : string)
    s resp s1 n e s2 :
  Client_Get net client targetURL (started prefix s) = Some (Ok resp, s1) ->
  io_Copy_Discard resp s1 = Some ((n, e), s2) ->
  exists s3 endTime duration,
    makeRequest net client prefix s = Some (tt, s3)
    /\ last (stdout s3)
       = Some (end_line prefix endTime (StatusCode resp) n duration
                 (shown_vercelID (Header resp)))
    /\ shown_vercelID (Header resp)
       = match Header resp !! "X-Vercel-Id" with
         | Some (v :: _) => if String.eqb v "" then "not found" else v
         | _ => "not found"
         end.
Proof.
  intros HG HC. do 3 eexists.
  split; [exact (makeRequest_Ok net client prefix _ _ _ _ _ _ HG HC)|].
  split; [cbn [stdout set_stdout set_open_bodies]; apply last_snoc|].
  unfold shown_vercelID. rewrite Header_Get_vercel.
  destruct (Header resp !! "X-Vercel-Id") as [[|v vs]|]; reflexivity.
Qed.

Lemma makeRequest_vercelID_witness :
  exists s3 endTime duration,
    makeRequest net_slow_body (createHTTPClient net_slow_body "[G1] ") "[G1] " (boot 0)
    = Some (tt, s3)
    /\ last (stdout s3) = Some (end_line "[G1] " endTime 200 5 duration "icn1::x").
Proof.
  destruct (makeRequest_vercelID net_slow_body (createHTTPClient net_slow_body "[G1] ")
              "[G1] " (boot 0)
              (mkResponse 200 (vercel_header "icn1::x") (Chunk (900 * Millisecond) "hello" EOF) None)
              (mkState (100 * Millisecond)
                 [start_line "[G1] " 0;
                  mkLine (nl +:+ "%s 🔗 NEW CONNECTION established to %s")
                    [VStr "[G1] "; VStr "alias-icn1.vercel.com:443"]]
                 [("tcp4", "alias-icn1.vercel.com:443")] 1 [] 1 [])
              5 None
              (mkState (1000 * Millisecond)
                 [start_line "[G1] " 0;
                  mkLine (nl +:+ "%s 🔗 NEW CONNECTION established to %s")
                    [VStr "[G1] "; VStr "alias-icn1.vercel.com:443"]]
                 [("tcp4", "alias-icn1.vercel.com:443")] 1 [] 1 []))
    as (s3 & endTime & duration & E & Hlast & _).
  - vm_compute. reflexivity.
  - vm_compute. reflexivity.
  - exists s3, endTime, duration. split; [exact E|exact Hlast].
Defined.

(** C8, as the claim has it, fails: the response has the header, its
    value is the empty string, and the end line says "not found"
    instead of that value. *)
Lemma makeRequest_vercelID_counterexample :
  exists resp s1 s3,
    Client_Get net_empty_header (createHTTPClient net_empty_header "[G1] ") targetURL
      (started "[G1] " (boot 0)) = Some (Ok resp, s1)
    /\ Header resp !! "X-Vercel-Id" = Some [""]
    /\ makeRequest net_empty_header (createHTTPClient net_empty_header "[G1] ") "[G1] " (boot 0)
       = Some (tt, s3)
    /\ last (stdout s3)
       = Some (end_line "[G1] " (100 * Millisecond) 200 5 (100 * Millisecond) "not found")
    /\ last (stdout s3)
       <> Some (end_line "[G1] " (100 * Millisecond) 200 5 (100 * Millisecond) "").
Proof.
  do 3 eexists. split; [vm_compute; reflexivity|].
  split; [vm_compute; reflexivity|]. split; [vm_compute; reflexivity|].
  split; [vm_compute; reflexivity|]. vm_compute. discriminate.
Qed.

(** ** Time bounds of a probe *)

Lemma canonicalAddr_targetURL : canonicalAddr targetURL = "aga-degradation.pacnw.xyz:443".
Proof. vm_compute. reflexivity. Qed.

Lemma SplitHostPort_target :
  SplitHostPort "aga-degradation.pacnw.xyz:443" = Ok ("aga-degradation.pacnw.xyz", "443").
Proof. vm_compute. reflexivity. Qed.

Lemma JoinHostPort_override_443 : JoinHostPort hostOverride "443" = dialed_addr.
Proof. vm_compute. reflexivity. Qed.

(** The dial of the client for the target URL, spelled out: one TCP
    dial to the override with a timeout of ten seconds, then the
    connection line. *)
Lemma createHTTPClient_dial_target (net : Network) (prefix : string) (ctx : Context) s :
  DialContext (c_Transport (createHTTPClient net prefix)) ctx "tcp" (canonicalAddr targetURL) s
  = match Dialer_DialContext net (mkDialer (10 * Second) (30 * Second)) ctx "tcp4" dialed_addr s with
    | Some (Ok conn, s') =>
        Some (Ok (connWrapper_Conn (mkConnWrapper conn dialed_addr prefix)),
              set_stdout (stdout s' ++ [mkLine (nl +:+ "%s 🔗 NEW CONNECTION established to %s")
                                          [VStr prefix; VStr dialed_addr]]) s')
    | Some (Err err, s') => Some (Err err, s')
    | None => None
    end.
Proof.
  rewrite canonicalAddr_targetURL. cbn [createHTTPClient c_Transport DialContext].
  unfold dialContext. change (negb (String.eqb hostOverride "")) with true. cbv iota.
  rewrite SplitHostPort_target. cbv iota beta. rewrite JoinHostPort_override_443.
  unfold bind. destruct (Dialer_DialContext _ _ _ _ _ _) as [[[conn|err] s']|]; reflexivity.
Qed.

(** A [Get] of the client of [createHTTPClient], spelled out: no
    deadline at all once a connection is there. *)
Lemma createHTTPClient_Get (net : Network) (prefix : string) s :
  Client_Get net (createHTTPClient net prefix) targetURL s
  = let ex := serve net (gets s) in
    let s0 := set_gets (S (gets s)) s in
    match
      (if ex_pooled ex then Some (Ok tt, s0)
       else match DialContext (c_Transport (createHTTPClient net prefix)) None "tcp"
                    (canonicalAddr targetURL) s0 with
            | Some (Ok _, s') => Some (Ok tt, s')
            | Some (Err err, s') => Some (Err err, s')
            | None => None
            end)
    with
    | Some (Ok _, s1) =>
        match ex_head ex with
        | HeadArrives after status header body =>
            Some (Ok (mkResponse status header body None),
                  set_open_bodies (open_bodies s1 + 1)
                    (set_clock (clock s1 + Z.max 0 after) s1))
        | HeadFails after err => Some (Err err, set_clock (clock s1 + Z.max 0 after) s1)
        | HeadStalls => None
        end
    | Some (Err err, s1) => Some (Err err, s1)
    | None => None
    end.
Proof.
  unfold Client_Get. cbn [Timeout createHTTPClient]. change (0 <? 0) with false. cbv iota.
  unfold bind at 1. cbn [time_Now]. unfold bind at 1. cbv beta iota zeta.
  unfold bind at 1.
  destruct (ex_pooled (serve net (gets s))).
  - cbn [ret]. unfold bind at 1. cbn [time_Now c_Transport ResponseHeaderTimeout].
    change (0 <? 0) with false. cbn [earliest].
    destruct (ex_head (serve net (gets s))); reflexivity.
  - unfold bind at 1.
    destruct (DialContext _ _ _ _ _) as [[[conn|err] s1]|]; [|reflexivity|reflexivity].
    cbn [ret]. unfold bind at 1. cbn [time_Now c_Transport ResponseHeaderTimeout].
    change (0 <? 0) with false. cbn [earliest].
    destruct (ex_head (serve net (gets s))); reflexivity.
Qed.

(** The dialer of the client gives a connect that is not answered up
    after ten seconds. *)
Lemma Dialer_no_answer (net : Network) (address : string) s :
  connect net (length (dials s)) "tcp4" address = NoAnswer ->
  Dialer_DialContext net (mkDialer (10 * Second) (30 * Second)) None "tcp4" address s
  = Some (Err ErrTimeout,
          set_clock (clock s + 10 * Second) (set_dials (dials s ++ [("tcp4", address)]) s)).
Proof.
  intros H. unfold Dialer_DialContext. rewrite H. cbn [d_Timeout].
  change (10 * Second =? 0) with false. cbn [earliest await clock set_dials].
  do 3 f_equal. unfold Second, Millisecond, Nanosecond. lia.
Qed.

(** And returns the connection of a connect that is accepted within
    ten seconds. *)
Lemma Dialer_connects (net : Network) (address : string) s after conn :
  connect net (length (dials s)) "tcp4" address = Connects after conn ->
  Z.max 0 after <= 10 * Second ->
  Dialer_DialContext net (mkDialer (10 * Second) (30 * Second)) None "tcp4" address s
  = Some (Ok conn,
          set_clock (clock s + Z.max 0 after) (set_dials (dials s ++ [("tcp4", address)]) s)).
Proof.
  intros H Hle. unfold Dialer_DialContext. rewrite H. cbn [d_Timeout].
  change (10 * Second =? 0) with false. cbn [earliest await clock set_dials].
  destruct (Z.leb_spec (clock s + Z.max 0 after) (clock s + 10 * Second)); [reflexivity|lia].
Qed.

(** C9.  The client of [createHTTPClient] has no timeout: its [Timeout]
    is zero, not [requestTimeout], and so is the response header
    timeout of its transport.  A probe whose connection is there (an
    idle one is reused, or the dial is accepted within the ten seconds
    of the dialer) and whose response never comes, never returns. *)
Theorem makeRequest_no_timeout (net : Network) (prefix : string) (s : State) :
  ex_head (serve net (gets s)) = HeadStalls ->
  (ex_pooled (serve net (gets s)) = true
   \/ exists after conn,
        ex_pooled (serve net (gets s)) = false
        /\ connect net (length (dials s)) "tcp4" dialed_addr = Connects after conn
        /\ Z.max 0 after <= 10 * Second) ->
  Timeout (createHTTPClient net prefix) = 0
  /\ Timeout (createHTTPClient net prefix) <> requestTimeout
  /\ ResponseHeaderTimeout (c_Transport (createHTTPClient net prefix)) = 0
  /\ makeRequest net (createHTTPClient net prefix) prefix s = None.
Proof.
  intros Hstall Hconn.
  split; [reflexivity|]. split; [discriminate|]. split; [reflexivity|].
  apply makeRequest_blocks. rewrite createHTTPClient_Get.
  cbn [started gets set_stdout]. cbv zeta. rewrite Hstall.
  destruct Hconn as [-> | (after & conn & -> & Hc & Hle)]; [reflexivity|].
  rewrite createHTTPClient_dial_target.
  rewrite (Dialer_connects net dialed_addr _ after conn); [reflexivity| exact Hc | exact Hle].
Qed.

Lemma makeRequest_no_timeout_witness :
  Timeout (createHTTPClient net_stalled "[G1] ") = 0
  /\ Timeout (createHTTPClient net_stalled "[G1] ") <> requestTimeout
  /\ ResponseHeaderTimeout (c_Transport (createHTTPClient net_stalled "[G1] ")) = 0
  /\ makeRequest net_stalled (createHTTPClient net_stalled "[G1] ") "[G1] " (boot 0) = None.
Proof.
  apply (makeRequest_no_timeout net_stalled "[G1] " (boot 0)).
  - reflexivity.
  - right. exists (20 * Millisecond), (tcpConn 0 dialed_addr).
    split; [reflexivity|]. split; [reflexivity|]. vm_compute. discriminate.
Defined.

(** The one bound there is: a dial that is not answered makes the probe
    end in an error line ten seconds after its start. *)
Lemma makeRequest_dial_timeout (net : Network) (prefix : string) (s : State) :
  ex_pooled (serve net (gets s)) = false ->
  connect net (length (dials s)) "tcp4" dialed_addr = NoAnswer ->
  exists s',
    makeRequest net (createHTTPClient net prefix) prefix s = Some (tt, s')
    /\ clock s' = clock s + 10 * Second
    /\ last (stdout s') = Some (error_line prefix (clock s + 10 * Second) ErrTimeout).
Proof.
  intros Hp Hc. eexists. split.
  - apply makeRequest_Err. rewrite createHTTPClient_Get.
    cbn [started gets set_stdout]. cbv zeta. rewrite Hp.
    rewrite createHTTPClient_dial_target.
    rewrite Dialer_no_answer; [reflexivity|exact Hc].
  - split; [reflexivity|]. cbn [stdout set_stdout clock set_clock]. apply last_snoc.
Qed.

(** A body that stalls blocks the probe as well. *)
Lemma makeRequest_body_stall (net : Network) (prefix : string) (s : State)
    after status header unread :
  ex_pooled (serve net (gets s)) = true ->
  ex_head (serve net (gets s)) = HeadArrives after status header (Stall unread) ->
  makeRequest net (createHTTPClient net prefix) prefix s = None.
Proof.
  intros Hp Hh. unfold makeRequest.
  unfold bind at 1. cbn [time_Now].
  unfold bind at 1. cbn [Printf]. fold (start_line prefix (clock s)). fold (started prefix s).
  unfold bind at 1. rewrite createHTTPClient_Get.
  cbn [started gets set_stdout]. cbv zeta. rewrite Hp, Hh.
  reflexivity.
Qed.

(** With [requestTimeout] as its [Timeout] the same client would give
    a stalled response up. *)
Lemma Get_with_requestTimeout_returns (net : Network) (prefix : string) (s : State) :
  ex_pooled (serve net (gets s)) = true ->
  ex_head (serve net (gets s)) = HeadStalls ->
  Client_Get net (mkClient (c_Transport (createHTTPClient net prefix)) requestTimeout)
    targetURL s
  = Some (Err ErrTimeout, set_clock (clock s + requestTimeout) (set_gets (S (gets s)) s)).
Proof.
  intros Hp Hh. unfold Client_Get. cbn [Timeout]. change (0 <? requestTimeout) with true.
  cbv iota. unfold bind at 1. cbn [time_Now]. unfold bind at 1. cbv beta iota zeta.
  rewrite Hp, Hh. unfold bind at 1. cbn [ret]. unfold bind at 1.
  cbn [time_Now c_Transport createHTTPClient ResponseHeaderTimeout].
  change (0 <? 0) with false. cbn [earliest await clock set_gets].
  do 3 f_equal. unfold requestTimeout, Second, Millisecond, Nanosecond. lia.
Qed.

(** ** [strconv.Atoi] returns an [int] *)

Lemma digit_val_range (ch : ascii) : 0 <= digit_val ch < 256.
Proof. unfold digit_val. apply Z.mod_pos_bound. lia. Qed.

Lemma atoi_fast_bound (s : string) : forall acc n,
  0 <= acc ->
  atoi_fast s acc = Some n ->
  0 <= n < (acc + 1) * 10 ^ Z.of_nat (String.length s).
Proof.
  induction s as [|ch s IH]; intros acc n Hacc H; cbn [atoi_fast String.length] in *.
  - injection H as <-. cbn. lia.
  - pose proof (digit_val_range ch) as Hd.
    destruct (Z.ltb_spec 9 (digit_val ch)); [discriminate|].
    apply IH in H; [|lia].
    rewrite Nat2Z.inj_succ, Z.pow_succ_r by lia.
    assert (0 < 10 ^ Z.of_nat (String.length s)) by (apply Z.pow_pos_nonneg; lia).
    nia.
Qed.

Lemma slice_tail (c : ascii) (s : string) : slice (String c s) 1 (len (String c s)) = s.
Proof.
  unfold slice, len. cbn [String.length].
  replace (Z.to_nat (Z.of_nat (S (String.length s)) - 1)) with (String.length s) by lia.
  change (Z.to_nat 1) with 1%nat. cbn [String.substring].
  induction s as [|a s IH]; cbn [String.substring String.length]; [reflexivity|].
  now rewrite IH.
Qed.

Lemma has_sign_nonempty (s : string) : has_sign s = true -> exists c s', s = String c s'.
Proof. destruct s as [|c s']; [discriminate|eauto]. Qed.

Lemma parseUint_loop_nonneg fn s0 (s : string) : forall n v,
  0 <= n -> parseUint_loop fn s0 s n = Ok v -> 0 <= v.
Proof.
  induction s as [|c s IH]; intros n v Hn H; cbn [parseUint_loop] in H.
  - now injection H as <-.
  - destruct (9 <? digit_val c); [discriminate|].
    destruct (_ <=? n); [discriminate|].
    destruct (_ || _); [discriminate|].
    apply IH in H; [exact H|]. apply Z.mod_pos_bound. lia.
Qed.

(** What [Atoi] accepts is in the range of an [int]. *)
Lemma Atoi_range (s : string) (n : Z) : Atoi s = Ok n -> MinInt64 <= n <= MaxInt64.
Proof.
  unfold Atoi, MinInt64, MaxInt64.
  destruct ((0 <? len s) && (len s <? 19)) eqn:Hfast.
  - apply andb_prop in Hfast as [_ Hlen]. apply Z.ltb_lt in Hlen.
    set (s' := if has_sign s then slice s 1 (len s) else s).
    assert (Hs' : Z.of_nat (String.length s') <= 18).
    { subst s'. destruct (has_sign s) eqn:Hsign; [|unfold len in Hlen; lia].
      destruct (has_sign_nonempty s Hsign) as (c & t & ->).
      rewrite slice_tail. unfold len in Hlen. cbn [String.length] in Hlen. lia. }
    destruct (has_sign s && (len s' <? 1)); [discriminate|].
    destruct (atoi_fast s' 0) as [m|] eqn:Hm; [|discriminate].
    apply atoi_fast_bound in Hm; [|lia].
    assert (10 ^ Z.of_nat (String.length s') <= 10 ^ 18) by (apply Z.pow_le_mono_r; lia).
    intros [= <-]. destruct (byte_is s 0 "-"); lia.
  - unfold ParseInt. destruct (String.eqb s ""); [discriminate|].
    destruct (ParseUint _ _ _) as [un|] eqn:Hun; [|discriminate].
    assert (0 <= un).
    { unfold ParseUint in Hun. destruct (String.eqb _ ""); [discriminate|].
      now apply parseUint_loop_nonneg in Hun. }
    destruct (byte_is s 0 "-"); cbn [negb andb].
    + destruct (Z.ltb_spec (2 ^ 63) un); [discriminate|]. intros [= <-]. lia.
    + destruct (Z.leb_spec (2 ^ 63) un); [discriminate|]. intros [= <-]. lia.
Qed.

(** ** [strconv.Atoi] reads what [strconv.Itoa] writes *)

Lemma append_cons (c : ascii) (a b : string) : String c a +:+ b = String c (a +:+ b).
Proof. reflexivity. Qed.

Lemma append_nil (b : string) : "" +:+ b = b.
Proof. reflexivity. Qed.

Lemma digit_val_digit (n : Z) :
  digit_val (ascii_of_nat (48 + Z.to_nat (n mod 10))) = n mod 10.
Proof.
  pose proof (Z.mod_pos_bound n 10 ltac:(lia)) as H.
  unfold digit_val. rewrite nat_ascii_embedding by lia.
  rewrite Nat2Z.inj_add, Z2Nat.id by lia. rewrite Z.mod_small; lia.
Qed.

Lemma atoi_fast_app (a b : string) : forall acc,
  atoi_fast (a +:+ b) acc
  = match atoi_fast a acc with
    | Some m => atoi_fast b m
    | None => None
    end.
Proof.
  induction a as [|c a IH]; intros acc; [reflexivity|].
  rewrite append_cons. cbn [atoi_fast]. destruct (9 <? digit_val c); [reflexivity|apply IH].
Qed.

Lemma atoi_fast_digit (n acc : Z) : atoi_fast (digit n) acc = Some (acc * 10 + n mod 10).
Proof.
  unfold digit. cbn [atoi_fast]. rewrite digit_val_digit.
  pose proof (Z.mod_pos_bound n 10 ltac:(lia)).
  destruct (Z.ltb_spec 9 (n mod 10)); [lia|reflexivity].
Qed.

Lemma atoi_fast_digits (fuel : nat) : forall n,
  0 <= n < 10 ^ Z.of_nat fuel ->
  atoi_fast (digits fuel n) 0 = Some n.
Proof.
  induction fuel as [|fuel IH]; intros n Hn.
  - cbn in Hn. cbn [digits atoi_fast]. f_equal. lia.
  - cbn [digits]. rewrite Nat2Z.inj_succ, Z.pow_succ_r in Hn by lia.
    destruct (Z.ltb_spec n 10).
    + rewrite atoi_fast_digit. rewrite Z.mod_small by lia. reflexivity.
    + rewrite atoi_fast_app, IH.
      * rewrite atoi_fast_digit. f_equal. pose proof (Z.div_mod n 10). lia.
      * split; [apply Z.div_pos; lia|]. apply Z.div_lt_upper_bound; lia.
Qed.

Lemma parseUint_loop_app fn s0 (a b : string) : forall acc,
  parseUint_loop fn s0 (a +:+ b) acc
  = match parseUint_loop fn s0 a acc with
    | Ok m => parseUint_loop fn s0 b m
    | Err e => Err e
    end.
Proof.
  induction a as [|c a IH]; intros acc; [reflexivity|].
  rewrite append_cons. cbn [parseUint_loop].
  destruct (9 <? digit_val c); [reflexivity|].
  destruct (_ <=? acc); [reflexivity|].
  destruct (_ || _); [reflexivity|apply IH].
Qed.

Lemma parseUint_loop_digit fn s0 (n acc : Z) :
  0 <= acc -> acc * 10 + n mod 10 < 2 ^ 63 ->
  parseUint_loop fn s0 (digit n) acc = Ok (acc * 10 + n mod 10).
Proof.
  intros Hacc Hlt. unfold digit. cbn [parseUint_loop]. rewrite digit_val_digit.
  pose proof (Z.mod_pos_bound n 10 ltac:(lia)).
  destruct (Z.ltb_spec 9 (n mod 10)); [lia|].
  destruct (Z.leb_spec ((2 ^ 64 - 1) / 10 + 1) acc) as [Hc|Hc].
  { change ((2 ^ 64 - 1) / 10 + 1) with 1844674407370955162 in Hc. lia. }
  rewrite Z.mod_small by lia.
  destruct (Z.ltb_spec (acc * 10 + n mod 10) (acc * 10)); [lia|].
  destruct (Z.ltb_spec (2 ^ 64 - 1) (acc * 10 + n mod 10)); [lia|]. reflexivity.
Qed.

Lemma parseUint_loop_digits fn s0 (fuel : nat) : forall n,
  0 <= n < 10 ^ Z.of_nat fuel -> n < 2 ^ 63 ->
  parseUint_loop fn s0 (digits fuel n) 0 = Ok n.
Proof.
  induction fuel as [|fuel IH]; intros n Hn H63.
  - cbn in Hn. cbn [digits parseUint_loop]. f_equal. lia.
  - cbn [digits]. rewrite Nat2Z.inj_succ, Z.pow_succ_r in Hn by lia.
    destruct (Z.ltb_spec n 10).
    + rewrite parseUint_loop_digit by (rewrite ?Z.mod_small; lia).
      rewrite Z.mod_small by lia. reflexivity.
    + pose proof (Z.div_mod n 10 ltac:(lia)).
      pose proof (Z.mod_pos_bound n 10 ltac:(lia)).
      assert (0 <= n / 10) by (apply Z.div_pos; lia).
      rewrite parseUint_loop_app, IH.
      * rewrite parseUint_loop_digit by lia. f_equal. lia.
      * split; [lia|]. apply Z.div_lt_upper_bound; lia.
      * lia.
Qed.

Lemma digits_head (fuel : nat) : forall n,
  exists k rest, (k < 10)%nat /\ digits (S fuel) n = String (ascii_of_nat (48 + k)) rest.
Proof.
  induction fuel as [|fuel IH]; intros n.
  - assert (Hk : (Z.to_nat (n mod 10) < 10)%nat)
      by (pose proof (Z.mod_pos_bound n 10 ltac:(lia)); lia).
    exists (Z.to_nat (n mod 10)), "". split; [exact Hk|].
    cbn [digits]. destruct (n <? 10); reflexivity.
  - cbn [digits]. destruct (n <? 10).
    + exists (Z.to_nat (n mod 10)), "". split; [|reflexivity].
      pose proof (Z.mod_pos_bound n 10 ltac:(lia)); lia.
    + destruct (IH (n / 10)) as (k & rest & Hk & E).
      cbn [digits] in E. rewrite E. exists k, (rest +:+ digit n). split; [exact Hk|reflexivity].
Qed.

Lemma digit_char_no_sign (k : nat) (rest : string) :
  (k < 10)%nat -> has_sign (String (ascii_of_nat (48 + k)) rest) = false.
Proof.
  intros Hk. do 10 (destruct k as [|k]; [reflexivity|]). lia.
Qed.

(** Every [int] that is not negative is read back from its decimal
    numeral. *)
Lemma Atoi_Itoa (n : Z) : 0 <= n <= MaxInt64 -> Atoi (Itoa n) = Ok n.
Proof.
  intros Hn. unfold Itoa. destruct (Z.ltb_spec n 0); [lia|].
  assert (H20 : 0 <= n < 10 ^ Z.of_nat 20) by (unfold MaxInt64 in Hn; cbn; lia).
  destruct (digits_head 19 n) as (k & rest & Hk & E).
  pose proof (digit_char_no_sign k rest Hk) as Hsign. rewrite <- E in Hsign.
  assert (Hminus : byte_is (digits 20 n) 0 "-" = false).
  { unfold has_sign in Hsign. apply orb_false_elim in Hsign. tauto. }
  unfold Atoi. rewrite Hsign, Hminus. cbn [andb].
  destruct ((0 <? len (digits 20 n)) && (len (digits 20 n) <? 19)).
  - now rewrite atoi_fast_digits.
  - unfold ParseInt. rewrite Hsign, Hminus.
    assert (String.eqb (digits 20 n) "" = false) as -> by (rewrite E; reflexivity).
    unfold ParseUint.
    assert (String.eqb (digits 20 n) "" = false) as -> by (rewrite E; reflexivity).
    rewrite parseUint_loop_digits by (unfold MaxInt64 in Hn; lia).
    cbn [negb andb]. destruct (Z.leb_spec (2 ^ 63) n); [unfold MaxInt64 in Hn; lia|reflexivity].
Qed.

(** ** The supervisor *)

Lemma wrap64_small (z : Z) : MinInt64 <= z <= MaxInt64 -> wrap64 z = z.
Proof.
  unfold wrap64, MinInt64, MaxInt64. intros H.
  rewrite Z.mod_small; lia.
Qed.

Lemma staggered_nil (t0 i : Z) : staggered t0 i 0 = [].
Proof. reflexivity. Qed.

Lemma staggered_cons (t0 i : Z) (count : nat) :
  staggered t0 i (S count)
  = (i + 1, t0 + workerOffset) :: staggered (t0 + workerOffset) (i + 1) count.
Proof.
  unfold staggered. cbn [seq map]. f_equal.
  rewrite <- seq_shift, map_map. apply map_ext. intros j. f_equal; lia.
Qed.

Lemma staggered_ids (t0 : Z) (count : nat) :
  map fst (staggered t0 0 count) = map Z.of_nat (seq 1 count).
Proof. unfold staggered. rewrite map_map. apply map_ext. intros j. reflexivity. Qed.

Lemma staggered_length (t0 i : Z) (count : nat) : length (staggered t0 i count) = count.
Proof. unfold staggered. now rewrite length_map, length_seq. Qed.

(** The loop of [main]: with fuel for the turns that are left it ends,
    and has started the workers [i+1], ..., [numGoroutines], each after
    one more [workerOffset]. *)
Lemma start_workers_spec (fuel : nat) : forall i n s,
  0 <= i -> n <= MaxInt64 -> n - i <= Z.of_nat fuel ->
  start_workers fuel i n s
  = Some (tt, set_goroutines (goroutines s ++ staggered (clock s) i (Z.to_nat (n - i)))
                (set_clock (clock s + Z.of_nat (Z.to_nat (n - i)) * workerOffset) s)).
Proof.
  induction fuel as [|fuel IH]; intros i n s Hi Hn Hfuel.
  - cbn [start_workers]. destruct (Z.ltb_spec i n); [lia|].
    replace (Z.to_nat (n - i)) with 0%nat by lia.
    rewrite staggered_nil, app_nil_r. cbn [Z.of_nat Z.mul]. rewrite Z.add_0_r.
    destruct s; reflexivity.
  - cbn [start_workers]. destruct (Z.ltb_spec i n).
    + rewrite wrap64_small by (unfold MinInt64, MaxInt64 in *; lia).
      unfold bind at 1. cbn [time_Sleep]. unfold bind at 1. cbn [go_runWorker].
      rewrite IH by (cbn; lia).
      replace (Z.to_nat (n - i)) with (S (Z.to_nat (n - (i + 1)))) by lia.
      rewrite staggered_cons. unfold set_goroutines, set_clock.
      cbn [clock stdout dials gets closed open_bodies goroutines].
      rewrite <- app_assoc. cbn [app].
      do 2 f_equal. f_equal. lia.
    + replace (Z.to_nat (n - i)) with 0%nat by lia.
      rewrite staggered_nil, app_nil_r. cbn [Z.of_nat Z.mul]. rewrite Z.add_0_r.
      destruct s; reflexivity.
Qed.

(** The worker count [main] settles on is positive and an [int]; the
    arguments only add lines to the output. *)
Lemma parse_args_returns (Args : list string) (s : State) :
  exists n out,
    parse_args Args s = Some (n, set_stdout (stdout s ++ out) s)
    /\ 1 <= n <= MaxInt64.
Proof.
  unfold parse_args.
  assert (Hone : 1 <= 1 <= MaxInt64) by (unfold MaxInt64; lia).
  assert (Hs : s = set_stdout (stdout s ++ []) s) by (rewrite app_nil_r; destruct s; reflexivity).
  destruct (Args !! 1%nat) as [arg|].
  - destruct (Atoi arg) as [n|err] eqn:HA.
    + destruct (Z.ltb_spec 0 n).
      * exists n, []. apply Atoi_range in HA. split; [unfold ret; congruence|lia].
      * exists 1, [invalid_line arg]. split; [reflexivity|exact Hone].
    + exists 1, [invalid_line arg]. split; [reflexivity|exact Hone].
  - exists 1, []. split; [unfold ret; congruence|exact Hone].
Qed.

(** [main] up to its wait, from the count [parse_args] returns. *)
Lemma main_start_from (Args : list string) (s s0 : State) (n : Z) :
  parse_args Args s = Some (n, s0) ->
  1 <= n <= MaxInt64 ->
  main_start Args s
  = Some (n, set_goroutines (goroutines s0 ++ staggered (clock s0) 0 (Z.to_nat n))
               (set_clock (clock s0 + n * workerOffset)
                  (set_stdout (stdout s0 ++ banner n) s0))).
Proof.
  intros HP Hn. unfold main_start. rewrite (bind_Some _ _ _ _ _ HP).
  unfold bind at 1. cbn [Printf]. unfold bind at 1. cbn [Println Printf].
  unfold bind at 1. rewrite start_workers_spec by lia.
  rewrite Z.sub_0_r, Z2Nat.id by lia.
  cbn [ret stdout clock goroutines set_stdout set_clock set_goroutines].
  rewrite <- app_assoc. reflexivity.
Qed.

(** C10.  For every command line [main] reaches its wait, with a worker
    count [n] of at least one; counted from the start of the process,
    the worker [j] was started at [j] times [workerOffset], the first
    one after one offset and not at once, and the wait for the stop
    signal begins at [n] times [workerOffset]. *)
Theorem main_start_staggers (Args : list string) (s : State) :
  exists n s',
    main_start Args s = Some (n, s')
    /\ 1 <= n
    /\ goroutines s'
       = goroutines s
         ++ map (fun j : nat => (Z.of_nat j, clock s + Z.of_nat j * workerOffset))
              (seq 1 (Z.to_nat n))
    /\ clock s' = clock s + n * workerOffset
    /\ forall signal,
         main Args signal s
         = bind (recv_stopChan signal) (fun _ => Println (nl +:+ "Shutting down...")) s'.
Proof.
  destruct (parse_args_returns Args s) as (n & out & HP & Hn).
  exists n. eexists. split; [exact (main_start_from Args s _ n HP Hn)|].
  split; [lia|]. split; [reflexivity|]. split; [reflexivity|].
  intros signal. unfold main.
  now rewrite (bind_Some _ _ _ _ _ (main_start_from Args s _ n HP Hn)).
Qed.

(** Three workers, from a process started at time 0. *)
Example main_start_three :
  exists s',
    main_start ["monitor"; "3"] (boot 0) = Some (3, s')
    /\ goroutines s'
       = [(1, 147 * Millisecond); (2, 294 * Millisecond); (3, 441 * Millisecond)]
    /\ clock s' = 441 * Millisecond.
Proof. eexists. split; [vm_compute; reflexivity|]. split; reflexivity. Qed.

(** For a worker-count argument that [strconv.Atoi] reads as a
    positive [N], [main] starts exactly [N] workers, with the
    identities 1, 2, ..., [N] in this order. *)
Lemma main_start_count_parsed (Args : list string) (arg : string) (N : Z) (s : State) :
  Args !! 1%nat = Some arg ->
  Atoi arg = Ok N ->
  0 < N ->
  exists s',
    main_start Args s = Some (N, s')
    /\ map fst (goroutines s') = map fst (goroutines s) ++ map Z.of_nat (seq 1 (Z.to_nat N))
    /\ Z.of_nat (length (goroutines s')) = Z.of_nat (length (goroutines s)) + N
    /\ NoDup (map Z.of_nat (seq 1 (Z.to_nat N))).
Proof.
  intros Harg HA HN. pose proof (Atoi_range _ _ HA) as [_ Hmax].
  assert (HP : parse_args Args s = Some (N, s)).
  { unfold parse_args. rewrite Harg, HA. destruct (Z.ltb_spec 0 N); [reflexivity|lia]. }
  eexists. split; [exact (main_start_from Args s s N HP ltac:(lia))|].
  cbn [goroutines set_goroutines]. split; [|split].
  - now rewrite map_app, staggered_ids.
  - rewrite length_app, staggered_length. lia.
  - apply NoDup_fmap_2; [intros x y; lia|apply NoDup_seq].
Qed.

(** C6, as the code has it.  For every positive [N] up to [MaxInt64],
    the largest [int], given in decimal as the worker-count argument,
    [main] starts exactly [N] workers, with the identities
    1, 2, ..., [N] in this order, all different. *)
Theorem main_start_count (prog : string) (rest : list string) (N : Z) (s : State) :
  0 < N <= MaxInt64 ->
  exists s',
    main_start (prog :: Itoa N :: rest) s = Some (N, s')
    /\ map fst (goroutines s') = map fst (goroutines s) ++ map Z.of_nat (seq 1 (Z.to_nat N))
    /\ Z.of_nat (length (goroutines s')) = Z.of_nat (length (goroutines s)) + N
    /\ NoDup (map Z.of_nat (seq 1 (Z.to_nat N))).
Proof.
  intros HN.
  apply (main_start_count_parsed (prog :: Itoa N :: rest) (Itoa N) N s);
    [reflexivity|apply Atoi_Itoa; lia|lia].
Qed.

Lemma main_start_count_witness :
  0 < 3 <= MaxInt64
  /\ exists s',
       main_start ["monitor"; "3"] (boot 0) = Some (3, s')
       /\ map fst (goroutines s') = [1; 2; 3].
Proof.
  split; [unfold MaxInt64; lia|].
  destruct (main_start_count "monitor" [] 3 (boot 0)) as (s' & E & Hids & _).
  - unfold MaxInt64. lia.
  - exists s'. split; [exact E|exact Hids].
Defined.

(** C6, as the claim has it, fails: 9223372036854775808, that is 2^63,
    is a positive integer; [strconv.Atoi] rejects it as out of range,
    [main] prints the line for a count it does not accept, and starts
    one worker. *)
Lemma main_start_count_counterexample :
  exists s',
    main_start ["monitor"; "9223372036854775808"] (boot 0) = Some (1, s')
    /\ Atoi "9223372036854775808" = Err (NumError "Atoi" "9223372036854775808" ErrRange)
    /\ head (stdout s') = Some (invalid_line "9223372036854775808")
    /\ map fst (goroutines s') = [1]
    /\ Z.of_nat (length (goroutines s')) <> 9223372036854775808.
Proof.
  eexists. split; [vm_compute; reflexivity|].
  split; [vm_compute; reflexivity|]. split; [reflexivity|]. split; [reflexivity|].
  vm_compute. discriminate.
Qed.

(** C7.  For a worker-count argument that is not a number for
    [strconv.Atoi] or is not positive, [main] prints the line that says
    so, takes 1 as worker count, and goes on as it does for the
    argument "1" from there. *)
Theorem main_invalid_count (prog arg : string) (rest : list string)
    (signal : option Z) (s : State) :
  invalid_count arg ->
  parse_args (prog :: arg :: rest) s
  = Some (1, set_stdout (stdout s ++ [invalid_line arg]) s)
  /\ main_start (prog :: arg :: rest) s
     = main_start (prog :: "1" :: rest) (set_stdout (stdout s ++ [invalid_line arg]) s)
  /\ main (prog :: arg :: rest) signal s
     = main (prog :: "1" :: rest) signal (set_stdout (stdout s ++ [invalid_line arg]) s).
Proof.
  intros Hinv.
  assert (HP : parse_args (prog :: arg :: rest) s
               = Some (1, set_stdout (stdout s ++ [invalid_line arg]) s)).
  { unfold parse_args, invalid_count in *. cbn [lookup list_lookup].
    destruct (Atoi arg) as [n|err]; [|reflexivity].
    destruct (Z.ltb_spec 0 n); [lia|reflexivity]. }
  assert (H1 : forall s0, parse_args (prog :: "1" :: rest) s0 = Some (1, s0)).
  { intros s0. reflexivity. }
  assert (HS : main_start (prog :: arg :: rest) s
               = main_start (prog :: "1" :: rest)
                   (set_stdout (stdout s ++ [invalid_line arg]) s)).
  { unfold main_start. now rewrite (bind_Some _ _ _ _ _ HP), (bind_Some _ _ _ _ _ (H1 _)). }
  split; [exact HP|]. split; [exact HS|].
  unfold main, bind at 1 3. now rewrite HS.
Qed.

Lemma main_invalid_count_witness :
  invalid_count "abc"
  /\ main_start ["monitor"; "abc"] (boot 0)
     = main_start ["monitor"; "1"] (set_stdout [invalid_line "abc"] (boot 0)).
Proof.
  split; [exact I|].
  exact (proj1 (proj2 (main_invalid_count "monitor" "abc" [] None (boot 0) I))).
Defined.

(** Zero, a negative number, and arguments that are not numbers. *)
Example invalid_counts :
  invalid_count "0" /\ invalid_count "-3" /\ invalid_count "abc"
  /\ invalid_count "" /\ invalid_count "1.5" /\ invalid_count "2x"
  /\ ~ invalid_count "1" /\ ~ invalid_count "+7".
Proof. unfold invalid_count. vm_compute. repeat split; try discriminate; auto. Qed.

(** ** The stop channel *)

Lemma notify_length (sig : Signal) (buf : list Signal) :
  (length (notify sig buf) <= length buf + 1)%nat.
Proof.
  unfold notify. destruct (length buf <? 1)%nat; [rewrite length_app; cbn|]; lia.
Qed.

Lemma received_snoc (n : Z) (buf : list Signal) (pc : MainPC) (ws : gmap Z WorkerPC)
    (evs : list Event) (e : Event) :
  received (mkSystem n buf pc ws (evs ++ [e]))
  = (received (mkSystem n buf pc ws evs) + if is_receive e then 1 else 0)%nat.
Proof.
  unfold received. cbn [events]. rewrite List.filter_app, length_app. cbn [List.filter].
  destruct (is_receive e); cbn [length]; lia.
Qed.

(** A receive takes a value out of the channel, and only the arrival
    of a signal puts one in: receives and buffered values together
    never outnumber the signals. *)
Lemma step_budget (a : Action) (s s' : System) :
  step a s = Some s' ->
  (received s' + length (stopChan s')
   <= received s + length (stopChan s) + if is_deliver a then 1 else 0)%nat.
Proof.
  unfold step. destruct s as [n buf pc ws evs]. cbn [numGoroutines stopChan main_pc workers events].
  intros H.
  destruct pc as [i| |], a as [| | |w|w|w|sig]; try discriminate; cbn [is_deliver];
    repeat match type of H with
      | context [if ?b then _ else _] => destruct b
      | context [match ws !! ?w with _ => _ end] => destruct (ws !! w) as [[| |]|]
      | context [match buf with _ => _ end] => destruct buf as [|sig0 buf]
      end;
    try discriminate; injection H as <-; cbn [stopChan];
    rewrite ?received_snoc; cbn [is_receive length];
    try pose proof (notify_length sig buf);
    unfold received in *; cbn [events length] in *; lia.
Qed.

Lemma exec_app (acts1 acts2 : list Action) (s : System) :
  exec (acts1 ++ acts2) s
  = match exec acts1 s with
    | Some s' => exec acts2 s'
    | None => None
    end.
Proof.
  revert s. induction acts1 as [|a acts1 IH]; intros s; cbn [exec app]; [reflexivity|].
  destruct (step a s); [apply IH|reflexivity].
Qed.

Lemma exec_budget (acts : list Action) : forall s s',
  exec acts s = Some s' ->
  (received s' + length (stopChan s') <= received s + length (stopChan s) + delivered acts)%nat.
Proof.
  induction acts as [|a acts IH]; intros s s' H; cbn [exec] in H.
  - injection H as <-. unfold delivered. cbn. lia.
  - destruct (step a s) as [s1|] eqn:E; [|discriminate].
    apply step_budget in E. apply IH in H.
    unfold delivered in *. cbn [List.filter]. destruct (is_deliver a); cbn [length]; lia.
Qed.

(** What holds at the start and is kept by every step holds after
    every run. *)
Lemma exec_invariant (P : System -> Prop) :
  (forall a s s', P s -> step a s = Some s' -> P s') ->
  forall acts s s', P s -> exec acts s = Some s' -> P s'.
Proof.
  intros Hstep. induction acts as [|a acts IH]; intros s s' HP H; cbn [exec] in H.
  - now injection H as <-.
  - destruct (step a s) as [s1|] eqn:E; [|discriminate]. eauto.
Qed.

Lemma step_logged (a : Action) (s s' : System) :
  logged s -> step a s = Some s' -> logged s'.
Proof.
  unfold step, logged. destruct s as [n buf pc ws evs].
  cbn [numGoroutines stopChan main_pc workers events]. intros [Hw Hm] H.
  destruct pc as [i| |], a as [| | |w|w|w|sig]; try discriminate;
    repeat match type of H with
      | context [if ?b then _ else _] => destruct b
      | context [match ws !! ?w with _ => _ end] => destruct (ws !! w) as [[| |]|] eqn:?
      | context [match buf with _ => _ end] => destruct buf as [|sig0 buf]
      end;
    try discriminate; injection H as <-; cbn [main_pc workers events];
    (split; [intros w' Hw'|intros Hm'; try discriminate]);
    try (rewrite lookup_insert in Hw'; case_decide; [try discriminate|]);
    try (apply in_or_app; left; now auto);
    try (apply in_or_app; right; left; congruence);
    auto.
Qed.

Lemma boot_logged (n : Z) : logged (boot_system n).
Proof.
  split; [|discriminate]. intros w H. cbn [boot_system workers] in H.
  rewrite lookup_empty in H. discriminate.
Qed.

Lemma two_receives (p : Event -> bool) (a b : Event) (l : list Event) :
  a <> b -> p a = true -> p b = true -> In a l -> In b l ->
  (2 <= length (List.filter p l))%nat.
Proof.
  intros Hab Ha Hb. induction l as [|x l IH]; intros Hia Hib; [destruct Hia|].
  cbn [List.filter].
  assert (Hone : forall c, p c = true -> In c l -> (1 <= length (List.filter p l))%nat).
  { intros c Hc Hic. assert (Hf : In c (List.filter p l)) by (apply List.filter_In; auto).
    destruct (List.filter p l); [destruct Hf|cbn; lia]. }
  destruct Hia as [->|Hia], Hib as [->|Hib].
  - congruence.
  - rewrite Ha. cbn [length]. specialize (Hone b Hb Hib). lia.
  - rewrite Hb. cbn [length]. specialize (Hone a Ha Hia). lia.
  - specialize (IH Hia Hib). destruct (p x); cbn [length]; lia.
Qed.

(** One signal stops at most one goroutine: after a run in which one
    signal arrived, no two workers have returned, and no worker has
    returned when [main] has. *)
Lemma one_signal_one_receiver (n : Z) (acts : list Action) (s : System) :
  exec acts (boot_system n) = Some s ->
  (delivered acts <= 1)%nat ->
  (forall w1 w2, w1 <> w2 ->
     ~ (workers s !! w1 = Some WReturned /\ workers s !! w2 = Some WReturned))
  /\ (forall w, workers s !! w = Some WReturned -> main_pc s <> MainExit).
Proof.
  intros H Hd. pose proof (exec_budget _ _ _ H) as Hb.
  change (received (boot_system n)) with 0%nat in Hb. cbn [boot_system stopChan length] in Hb.
  destruct (exec_invariant logged step_logged acts _ _ (boot_logged n) H) as [Hw Hm].
  unfold received in Hb. split.
  - intros w1 w2 Hne [H1 H2].
    pose proof (two_receives is_receive (EvStopping w1) (EvStopping w2) (events s)
                  ltac:(congruence) eq_refl eq_refl (Hw _ H1) (Hw _ H2)). lia.
  - intros w H1 Hexit.
    pose proof (two_receives is_receive (EvStopping w) EvShutdown (events s)
                  ltac:(discriminate) eq_refl eq_refl (Hw _ H1) (Hm Hexit)). lia.
Qed.

Lemma step_events_grow (a : Action) (s s' : System) (e : Event) :
  step a s = Some s' -> In e (events s) -> In e (events s').
Proof.
  unfold step. destruct s as [n buf pc ws evs].
  cbn [numGoroutines stopChan main_pc workers events]. intros H Hin.
  destruct pc as [i| |], a as [| | |w|w|w|sig]; try discriminate;
    repeat match type of H with
      | context [if ?b then _ else _] => destruct b
      | context [match ws !! ?w with _ => _ end] => destruct (ws !! w) as [[| |]|]
      | context [match buf with _ => _ end] => destruct buf as [|sig0 buf]
      end;
    try discriminate; injection H as <-; cbn [events];
    try (apply in_or_app; left); exact Hin.
Qed.

(** C3, on two workers and one signal.  When both workers are in their
    loops, [main] waits and one interrupt arrives, the [select] of
    worker 1 can be the one that receives it: worker 1 prints its
    stopping line and returns, the channel is empty again, worker 2 and
    [main] have nothing to receive, [main] does not return, and worker
    2 goes on with its next probe, which leaves an outcome line. *)
Theorem stop_signal_reaches_one_worker :
  exists s,
    exec one_signal_run (boot_system 2) = Some s
    /\ delivered one_signal_run = 1%nat
    /\ workers s !! 1 = Some WReturned
    /\ workers s !! 2 = Some WSelect
    /\ main_pc s = MainWait
    /\ stopChan s = []
    /\ events s = [EvOutcome 1; EvOutcome 2; EvStopping 1]
    /\ step (StopCase 2) s = None
    /\ step MainRecv s = None
    /\ exists s', step (TickCase 2) s = Some s'
                  /\ events s' = [EvOutcome 1; EvOutcome 2; EvStopping 1; EvOutcome 2].
Proof.
  eexists. split; [vm_compute; reflexivity|].
  repeat (split; [vm_compute; reflexivity|]).
  eexists. split; vm_compute; reflexivity.
Qed.

(** And nothing but another signal changes that: in no run that goes
    on from there without one does worker 2 return or [main] return. *)
Lemma stop_signal_is_spent (s more_s : System) (more : list Action) :
  exec one_signal_run (boot_system 2) = Some s ->
  exec more s = Some more_s ->
  delivered more = 0%nat ->
  workers more_s !! 2 <> Some WReturned /\ main_pc more_s <> MainExit.
Proof.
  intros Hrun Hmore Hd.
  assert (Hs : logged s /\ received s = 1%nat /\ stopChan s = [] /\ In (EvStopping 1) (events s)).
  { split; [exact (exec_invariant logged step_logged _ _ _ (boot_logged 2) Hrun)|].
    vm_compute in Hrun. injection Hrun as <-.
    split; [reflexivity|]. split; [reflexivity|]. right; right; now left. }
  destruct Hs as (Hlog & Hrcv & Hbuf & Hin).
  pose proof (exec_budget _ _ _ Hmore) as Hb. rewrite Hrcv, Hbuf, Hd in Hb. cbn [length] in Hb.
  destruct (exec_invariant logged step_logged more _ _ Hlog Hmore) as [Hw Hm].
  assert (Hin' : In (EvStopping 1) (events more_s)).
  { revert Hin. clear -Hmore. revert s Hmore.
    induction more as [|a more IH]; intros s H Hin; cbn [exec] in H.
    - now injection H as <-.
    - destruct (step a s) as [s1|] eqn:E; [|discriminate].
      eapply IH; [exact H|]. eapply step_events_grow; eauto. }
  unfold received in Hb. split.
  - intros H2.
    pose proof (two_receives is_receive (EvStopping 1) (EvStopping 2) (events more_s)
                  ltac:(discriminate) eq_refl eq_refl Hin' (Hw _ H2)). lia.
  - intros Hexit.
    pose proof (two_receives is_receive (EvStopping 1) EvShutdown (events more_s)
                  ltac:(discriminate) eq_refl eq_refl Hin' (Hm Hexit)). lia.
Qed.

(** A worker whose [select] receives from the stop channel prints its
    stopping line and returns; what the ticker does after that is of no
    consequence, no probe follows. *)
Lemma worker_loop_stop (net : Network) (client : Client) (prefix : string) (workerID : Z)
    (ticker : Z) (later : list Ready) (s : State) :
  worker_loop net client prefix workerID ticker (Stop :: later) s
  = Some (Returned,
          set_stdout (stdout s ++ [mkLine ("%s Worker %d stopping..." +:+ nl)
                                     [VStr prefix; VInt workerID]]) s).
Proof. reflexivity. Qed.

(** ** More on the dial *)

(** A wait with a deadline does not outlast it. *)
Lemma await_deadline_bound {A} t after (ontime late : A) s r s' :
  await (Some t) after ontime late s = Some (r, s') ->
  clock s' <= Z.max (clock s) t.
Proof.
  unfold await. destruct after as [d|].
  - destruct (Z.leb_spec (clock s + Z.max 0 d) t); intros [= <- <-]; cbn; lia.
  - intros [= <- <-]. cbn. lia.
Qed.

(** What a wait returns on time, and what late. *)
Lemma await_cases {A} deadline after (ontime late : A) s r s' :
  await deadline after ontime late s = Some (r, s') ->
  (r = ontime /\ exists d, after = Some d /\ clock s' = clock s + Z.max 0 d)
  \/ (r = late /\ exists t, deadline = Some t).
Proof.
  unfold await. destruct after as [d|], deadline as [t|]; try discriminate.
  - destruct (_ <=? _); intros [= <- <-]; [left|right]; eauto.
  - intros [= <- <-]. left. eauto.
  - intros [= <- <-]. right. eauto.
Qed.

(** A dial of the dialer: it is logged, moves the clock forward, by at
    most the timeout, and what it returns is what the connect met, or
    the timeout error. *)
Lemma Dialer_DialContext_inv (net : Network) (d : Dialer) ctx network address s r s' :
  Dialer_DialContext net d ctx network address s = Some (r, s') ->
  s' = set_clock (clock s') (set_dials (dials s ++ [(network, address)]) s)
  /\ clock s <= clock s'
  /\ (0 < d_Timeout d -> clock s' <= clock s + d_Timeout d)
  /\ match r with
     | Ok conn => exists after, connect net (length (dials s)) network address = Connects after conn
     | Err e => e = ErrTimeout
                \/ exists after, connect net (length (dials s)) network address = Refuses after e
     end.
Proof.
  unfold Dialer_DialContext. set (s1 := set_dials _ s).
  set (deadline := earliest ctx _).
  assert (Hdl : 0 < d_Timeout d -> exists t, deadline = Some t /\ t <= clock s + d_Timeout d).
  { intros Hpos. subst deadline. destruct (Z.eqb_spec (d_Timeout d) 0); [lia|].
    destruct ctx as [t0|]; cbn [earliest]; eexists; (split; [reflexivity|]); lia. }
  assert (Hgen : forall after (a b : result Conn),
             await deadline after a b s1 = Some (r, s') ->
             s' = set_clock (clock s') s1 /\ clock s <= clock s'
             /\ (0 < d_Timeout d -> clock s' <= clock s + d_Timeout d) /\ (r = a \/ r = b)).
  { intros after a b H. pose proof (await_inv _ _ _ _ _ _ _ H) as (E & Hc & Hr).
    split; [exact E|]. split; [exact Hc|]. split; [|exact Hr].
    intros Hpos. destruct (Hdl Hpos) as (t & Ht & Hle). rewrite Ht in H.
    apply await_deadline_bound in H. cbn [clock s1 set_dials] in H. lia. }
  destruct (connect net _ network address) as [after c|after e|] eqn:Hcon; intros H;
    apply Hgen in H as (E & Hc & Hb & Hr);
    (split; [exact E|]); (split; [exact Hc|]); (split; [exact Hb|]);
    destruct Hr as [->| ->]; eauto.
Qed.

(** X1.  Every dial of the client ends, and within ten seconds,
    whatever the context, the network asked for and the address are,
    and whatever the network does. *)
Theorem dialContext_within_ten_seconds (net : Network) (override prefix : string)
    (ctx : Context) (network addr : string) (s : State) :
  exists r s',
    dialContext net override prefix ctx network addr s = Some (r, s')
    /\ clock s <= clock s' <= clock s + 10 * Second.
Proof.
  assert (H10 : 0 < 10 * Second) by (vm_compute; reflexivity).
  assert (Hdial : forall a, exists r s',
             bind (Dialer_DialContext net (mkDialer (10 * Second) (30 * Second)) ctx "tcp4" a)
               (fun r => match r with
                         | Ok conn =>
                             bind (Printf (nl +:+ "%s 🔗 NEW CONNECTION established to %s")
                                     [VStr prefix; VStr a])
                               (fun _ => ret (Ok (connWrapper_Conn (mkConnWrapper conn a prefix))))
                         | Err err => ret (Err err)
                         end) s = Some (r, s')
             /\ clock s <= clock s' <= clock s + 10 * Second).
  { intros a.
    destruct (Dialer_DialContext_returns net (mkDialer (10 * Second) (30 * Second)) ctx "tcp4" a s)
      as (r & s1 & E & _); [discriminate|].
    pose proof (Dialer_DialContext_inv _ _ _ _ _ _ _ _ E) as (_ & Hc & Hb & _).
    specialize (Hb H10). cbn [d_Timeout] in Hb.
    rewrite (bind_Some _ _ _ _ _ E). destruct r as [conn|err].
    - eexists _, _. split; [reflexivity|]. cbn [clock set_stdout]. lia.
    - eexists _, _. split; [reflexivity|]. lia. }
  unfold dialContext. destruct (negb (String.eqb override "")).
  - destruct (SplitHostPort addr) as [[host port]|err].
    + apply Hdial.
    + exists (Err err), s. split; [reflexivity|]. lia.
  - apply Hdial.
Qed.

(** What a dial of the closure returns and leaves. *)
Lemma dialContext_inv (net : Network) (override prefix : string) (ctx : Context)
    (network addr : string) (s : State) r s' :
  dialContext net override prefix ctx network addr s = Some (r, s') ->
  match r with
  | Ok conn =>
      exists raw dialed after,
        connect net (length (dials s)) "tcp4" dialed = Connects after raw
        /\ conn = connWrapper_Conn (mkConnWrapper raw dialed prefix)
        /\ s' = set_stdout (stdout s ++ [conn_line prefix dialed])
                  (set_clock (clock s') (set_dials (dials s ++ [("tcp4", dialed)]) s))
  | Err err =>
      (s' = s /\ SplitHostPort addr = Err err /\ override <> "")
      \/ exists dialed,
           s' = set_clock (clock s') (set_dials (dials s ++ [("tcp4", dialed)]) s)
  end.
Proof.
  assert (Hdial : forall a,
             bind (Dialer_DialContext net (mkDialer (10 * Second) (30 * Second)) ctx "tcp4" a)
               (fun r => match r with
                         | Ok conn =>
                             bind (Printf (nl +:+ "%s 🔗 NEW CONNECTION established to %s")
                                     [VStr prefix; VStr a])
                               (fun _ => ret (Ok (connWrapper_Conn (mkConnWrapper conn a prefix))))
                         | Err err => ret (Err err)
                         end) s = Some (r, s') ->
             match r with
             | Ok conn =>
                 exists raw dialed after,
                   connect net (length (dials s)) "tcp4" dialed = Connects after raw
                   /\ conn = connWrapper_Conn (mkConnWrapper raw dialed prefix)
                   /\ s' = set_stdout (stdout s ++ [conn_line prefix dialed])
                             (set_clock (clock s') (set_dials (dials s ++ [("tcp4", dialed)]) s))
             | Err err =>
                 (s' = s /\ SplitHostPort addr = Err err /\ override <> "")
                 \/ exists dialed,
                      s' = set_clock (clock s') (set_dials (dials s ++ [("tcp4", dialed)]) s)
             end).
  { intros a H. apply bind_inv in H as (r0 & s1 & E & H).
    apply Dialer_DialContext_inv in E as (E1 & _ & _ & Hr).
    destruct r0 as [raw|err]; cbn in H; injection H as <- <-.
    - destruct Hr as [after Hcon]. exists raw, a, after.
      split; [exact Hcon|]. split; [reflexivity|].
      remember (clock s1) as t eqn:Ht. subst s1. reflexivity.
    - right. exists a. exact E1. }
  unfold dialContext. destruct (String.eqb_spec override "") as [|Hne]; cbn [negb].
  - apply Hdial.
  - destruct (SplitHostPort addr) as [[host port]|err].
    + apply Hdial.
    + intros [= <- <-]. left. auto.
Qed.



(** X3.  A dial that fails prints nothing.  Either the address did not
    split, and then nothing was dialed and nothing changed, or one
    address was dialed and nothing but the clock and the list of dials
    changed. *)
Theorem dialContext_failure_is_silent (net : Network) (override prefix : string)
    (ctx : Context) (network addr : string) (s s' : State) (err : error) :
  dialContext net override prefix ctx network addr s = Some (Err err, s') ->
  stdout s' = stdout s
  /\ (s' = s /\ SplitHostPort addr = Err err
      \/ exists dialed, dials s' = dials s ++ [("tcp4", dialed)]
                        /\ set_clock (clock s) (set_dials (dials s) s') = s).
Proof.
  intros H. apply dialContext_inv in H as [(-> & Hsplit & _)|(dialed & ->)].
  - split; [reflexivity|]. left. auto.
  - split; [reflexivity|]. right. exists dialed. split; [reflexivity|]. destruct s; reflexivity.
Qed.

Lemma dialContext_failure_is_silent_witness :
  exists s',
    dialContext net_silent hostOverride "[G1] " None "tcp" "aga-degradation.pacnw.xyz:443"
      (boot 0) = Some (Err ErrTimeout, s')
    /\ stdout s' = [].
Proof.
  eexists. split; [vm_compute; reflexivity|].
  exact (proj1 (dialContext_failure_is_silent net_silent hostOverride "[G1] " None "tcp"
                  "aga-degradation.pacnw.xyz:443" (boot 0) _ ErrTimeout
                  ltac:(vm_compute; reflexivity))).
Defined.

(** X4.  The wrapper has no memory of being closed: every call of its
    [Close] prints the line, also a call on a connection that is
    closed already.  With a wrapped [Close] that prints nothing, two
    calls leave the line twice. *)
Theorem connWrapper_Close_every_call (c : connWrapper) (s s1 s2 : State)
    (e1 e2 : option error) :
  (forall s0 e0 s0', Close (cw_Conn c) s0 = Some (e0, s0') -> stdout s0' = stdout s0) ->
  connWrapper_Close c s = Some (e1, s1) ->
  connWrapper_Close c s1 = Some (e2, s2) ->
  stdout s2 = stdout s ++ [closed_line c; closed_line c].
Proof.
  intros Hsilent H1 H2.
  apply bind_inv in H1 as ([] & t1 & [= <-] & H1), H2 as ([] & t2 & [= <-] & H2).
  apply Hsilent in H1, H2. cbn [stdout set_stdout] in *.
  rewrite H2, H1, <- app_assoc. reflexivity.
Qed.

Lemma tcpConn_Close_silent (fd : nat) (remote : string) s0 e0 s0' :
  Close (tcpConn fd remote) s0 = Some (e0, s0') -> stdout s0' = stdout s0.
Proof.
  cbn [Close tcpConn]. destruct (bool_decide _); intros [= <- <-]; reflexivity.
Qed.

Lemma connWrapper_Close_every_call_witness :
  let c := mkConnWrapper (tcpConn 7 "192.0.2.1:443") "192.0.2.1:443" "[G1] " in
  exists s1 s2 e2,
    connWrapper_Close c (boot 0) = Some (None, s1)
    /\ connWrapper_Close c s1 = Some (Some e2, s2)
    /\ stdout s2 = [closed_line c; closed_line c].
Proof.
  intros c.
  exists (mkState 0 [closed_line c] [] 0 [7%nat] 0 []),
         (mkState 0 [closed_line c; closed_line c] [] 0 [7%nat] 0 []),
         (OpError "close" "use of closed network connection").
  assert (H1 : connWrapper_Close c (boot 0)
               = Some (None, mkState 0 [closed_line c] [] 0 [7%nat] 0 []))
    by (vm_compute; reflexivity).
  assert (H2 : connWrapper_Close c (mkState 0 [closed_line c] [] 0 [7%nat] 0 [])
               = Some (Some (OpError "close" "use of closed network connection"),
                       mkState 0 [closed_line c; closed_line c] [] 0 [7%nat] 0 []))
    by (vm_compute; reflexivity).
  split; [exact H1|]. split; [exact H2|].
  exact (connWrapper_Close_every_call c _ _ _ _ _ (tcpConn_Close_silent 7 "192.0.2.1:443") H1 H2).
Defined.

(** ** More on the prober *)

(** The ways a probe returns. *)
Lemma makeRequest_cases (net : Network) (client : Client) (prefix : string) s s' :
  makeRequest net client prefix s = Some (tt, s') ->
  (exists err s1,
      Client_Get net client targetURL (started prefix s) = Some (Err err, s1)
      /\ s' = set_stdout (stdout s1 ++ [error_line prefix (clock s1) err]) s1)
  \/ (exists resp s1 n e s2,
         Client_Get net client targetURL (started prefix s) = Some (Ok resp, s1)
         /\ io_Copy_Discard resp s1 = Some ((n, e), s2)
         /\ s' = set_open_bodies (open_bodies s2 - 1)
                   (set_stdout
                      (stdout s2 ++ [end_line prefix (clock s1) (StatusCode resp) n
                                       (Duration_Round (Time_Sub (clock s1) (clock s)) Millisecond)
                                       (shown_vercelID (Header resp))]) s2)).
Proof.
  intros H.
  destruct (Client_Get net client targetURL (started prefix s)) as [[[resp|err] s1]|] eqn:HG.
  - destruct (io_Copy_Discard resp s1) as [[[n e] s2]|] eqn:HC.
    + rewrite (makeRequest_Ok net client prefix _ _ _ _ _ _ HG HC) in H.
      injection H as <-. right. exists resp, s1, n, e, s2. auto.
    + exfalso. revert H. unfold makeRequest.
      unfold bind at 1. cbn [time_Now]. unfold bind at 1. cbn [Printf].
      fold (start_line prefix (clock s)). fold (started prefix s).
      rewrite (bind_Some _ _ _ _ _ HG). unfold bind at 1. cbn [time_Now].
      now rewrite (bind_None _ _ _ HC).
  - rewrite (makeRequest_Err net client prefix _ _ _ HG) in H.
    injection H as <-. left. exists err, s1. auto.
  - now rewrite (makeRequest_blocks net client prefix _ HG) in H.
Qed.

(** What a [Get] of the client of [createHTTPClient] leaves: one more
    exchange, at most one dial, to the override, with its connection
    line if it succeeded, and one more open body if there is a
    response; the clock does not go back. *)
Lemma createHTTPClient_Get_inv (net : Network) (prefix : string) s r s1 :
  Client_Get net (createHTTPClient net prefix) targetURL s = Some (r, s1) ->
  exists lines newdials,
    s1 = mkState (clock s1) (stdout s ++ lines) (dials s ++ newdials) (S (gets s)) (closed s)
           (open_bodies s + match r with Ok _ => 1 | Err _ => 0 end) (goroutines s)
    /\ clock s <= clock s1
    /\ (lines = [] \/ lines = [conn_line prefix dialed_addr])
    /\ (newdials = [] \/ newdials = [("tcp4", dialed_addr)])
    /\ match r with Ok resp => body_deadline resp = None | Err _ => True end.
Proof.
  rewrite createHTTPClient_Get. cbv zeta.
  set (s0 := set_gets (S (gets s)) s).
  assert (Hhead : forall lines newdials t,
             clock s <= t ->
             (lines = [] \/ lines = [conn_line prefix dialed_addr]) ->
             (newdials = [] \/ newdials = [("tcp4", dialed_addr)]) ->
             let sc := mkState t (stdout s ++ lines) (dials s ++ newdials) (S (gets s))
                         (closed s) (open_bodies s) (goroutines s) in
             match ex_head (serve net (gets s)) with
             | HeadArrives after status header body =>
                 Some (Ok (mkResponse status header body None),
                       set_open_bodies (open_bodies sc + 1)
                         (set_clock (clock sc + Z.max 0 after) sc))
             | HeadFails after err => Some (Err err, set_clock (clock sc + Z.max 0 after) sc)
             | HeadStalls => None
             end = Some (r, s1) ->
             exists lines newdials,
               s1 = mkState (clock s1) (stdout s ++ lines) (dials s ++ newdials) (S (gets s))
                      (closed s)
                      (open_bodies s + match r with Ok _ => 1 | Err _ => 0 end) (goroutines s)
               /\ clock s <= clock s1
               /\ (lines = [] \/ lines = [conn_line prefix dialed_addr])
               /\ (newdials = [] \/ newdials = [("tcp4", dialed_addr)])
               /\ match r with Ok resp => body_deadline resp = None | Err _ => True end).
  { intros lines newdials t Ht Hl Hd sc H.
    destruct (ex_head (serve net (gets s))) as [after status header body|after err|];
      [| |discriminate]; injection H as <- <-; exists lines, newdials; cbn; repeat split;
      auto; try lia; rewrite ?Z.add_0_r; reflexivity. }
  destruct (ex_pooled (serve net (gets s))).
  - intros H. apply (Hhead [] [] (clock s)); [lia|auto|auto|].
    rewrite <- H. subst s0. rewrite !app_nil_r. destruct s; reflexivity.
  - rewrite createHTTPClient_dial_target.
    destruct (Dialer_DialContext net _ None "tcp4" dialed_addr s0) as [[[conn|err] sd]|] eqn:E;
      [| |discriminate];
      apply Dialer_DialContext_inv in E as (Esd & Hc & _ & _); cbn [clock s0 set_gets] in Hc.
    + intros H. apply (Hhead [conn_line prefix dialed_addr] [("tcp4", dialed_addr)] (clock sd));
        [lia|auto|auto|].
      rewrite <- H. remember (clock sd) as t. subst sd s0. destruct s; reflexivity.
    + intros [= <- <-]. exists [], [("tcp4", dialed_addr)].
      split; [|split; [lia|auto]].
      remember (clock sd) as t. subst sd s0. rewrite app_nil_r, Z.add_0_r.
      destruct s; reflexivity.
Qed.

(** What a probe of a worker leaves when it returns. *)
Lemma makeRequest_inv (net : Network) (prefix : string) s s' :
  makeRequest net (createHTTPClient net prefix) prefix s = Some (tt, s') ->
  exists lines newdials outcome,
    s' = mkState (clock s') (stdout s ++ start_line prefix (clock s) :: lines ++ [outcome])
           (dials s ++ newdials) (S (gets s)) (closed s) (open_bodies s) (goroutines s)
    /\ clock s <= clock s'
    /\ (lines = [] \/ lines = [conn_line prefix dialed_addr])
    /\ (newdials = [] \/ newdials = [("tcp4", dialed_addr)])
    /\ outcome_line prefix outcome.
Proof.
  intros H. apply makeRequest_cases in H
    as [(err & s1 & HG & ->)|(resp & s1 & n & e & s2 & HG & HC & ->)];
    apply createHTTPClient_Get_inv in HG as (lines & newdials & E1 & Hc & Hl & Hd & Hb);
    cbn [started clock stdout dials gets closed open_bodies goroutines set_stdout] in E1, Hc.
  - exists lines, newdials, (error_line prefix (clock s1) err).
    split; [|split; [exact Hc|split; [exact Hl|split; [exact Hd|]]]].
    + remember (clock s1) as t. rewrite E1.
      unfold set_stdout. cbn [clock stdout dials gets closed open_bodies goroutines].
      f_equal; try lia. rewrite <- !app_assoc. reflexivity.
    + right. eauto.
  - apply copy_discard_inv in HC as (E2 & Hc2 & _).
    exists lines, newdials,
      (end_line prefix (clock s1) (StatusCode resp) n
         (Duration_Round (Time_Sub (clock s1) (clock s)) Millisecond)
         (shown_vercelID (Header resp))).
    split; [|split; [cbn [clock set_open_bodies set_stdout]; lia|
                     split; [exact Hl|split; [exact Hd|]]]].
    + remember (clock s1) as t1. remember (clock s2) as t2. rewrite E2, E1.
      unfold set_stdout, set_open_bodies, set_clock.
      cbn [clock stdout dials gets closed open_bodies goroutines].
      f_equal; try lia. rewrite <- !app_assoc. reflexivity.
    + left. eauto 10.
Qed.





(** [d.Round(time.Millisecond)] of a duration that is not negative:
    a whole number of milliseconds, at most half a millisecond away. *)
Lemma Duration_Round_Millisecond (d : Z) :
  0 <= d <= MaxInt64 - Millisecond ->
  0 <= Duration_Round d Millisecond
  /\ Duration_Round d Millisecond mod Millisecond = 0
  /\ 2 * Z.abs (Duration_Round d Millisecond - d) <= Millisecond.
Proof.
  intros Hd. unfold Duration_Round.
  change Millisecond with 1000000 in *. change MaxInt64 with 9223372036854775807 in *.
  change (1000000 <=? 0) with false. cbv iota.
  destruct (Z.ltb_spec d 0); [lia|].
  rewrite Z.rem_mod_nonneg by lia.
  pose proof (Z.mod_pos_bound d 1000000 ltac:(lia)) as Hr.
  pose proof (Z.div_mod d 1000000 ltac:(lia)) as Hdm.
  unfold lessThanHalf.
  rewrite (Z.mod_small (d mod 1000000) (2 ^ 64)) by lia.
  rewrite (Z.mod_small (d mod 1000000 + d mod 1000000) (2 ^ 64)) by lia.
  change (1000000 mod 2 ^ 64) with 1000000.
  assert (Hq : 0 <= d / 1000000) by (apply Z.div_pos; lia).
  destruct (Z.ltb_spec (d mod 1000000 + d mod 1000000) 1000000).
  - rewrite wrap64_small by (unfold MinInt64, MaxInt64; lia).
    replace (d - d mod 1000000) with (d / 1000000 * 1000000) by lia.
    rewrite Z.mod_mul by lia. lia.
  - rewrite wrap64_small by (unfold MinInt64, MaxInt64; lia).
    destruct (Z.ltb_spec d (d + 1000000 - d mod 1000000)); [|lia].
    replace (d + 1000000 - d mod 1000000) with ((d / 1000000 + 1) * 1000000) by lia.
    rewrite Z.mod_mul by lia. lia.
Qed.

(** X7.  The duration in the end line of a probe of a worker is not
    negative, a whole number of milliseconds, and at most half a
    millisecond away from the time between the start of the probe and
    the return of [client.Get] (for a probe shorter than the largest
    duration). *)
Theorem makeRequest_duration (net : Network) (prefix : string) s resp s1 n e s2 :
  Client_Get net (createHTTPClient net prefix) targetURL (started prefix s) = Some (Ok resp, s1) ->
  io_Copy_Discard resp s1 = Some ((n, e), s2) ->
  clock s1 - clock s <= MaxInt64 - Millisecond ->
  exists s3 duration,
    makeRequest net (createHTTPClient net prefix) prefix s = Some (tt, s3)
    /\ last (stdout s3)
       = Some (end_line prefix (clock s1) (StatusCode resp) n duration
                 (shown_vercelID (Header resp)))
    /\ 0 <= duration
    /\ duration mod Millisecond = 0
    /\ 2 * Z.abs (duration - (clock s1 - clock s)) <= Millisecond.
Proof.
  intros HG HC Hlong.
  pose proof (createHTTPClient_Get_inv _ _ _ _ _ HG) as (_ & _ & _ & Hc & _).
  cbn [started clock set_stdout] in Hc.
  assert (HT : Time_Sub (clock s1) (clock s) = clock s1 - clock s).
  { unfold Time_Sub, MinInt64, MaxInt64 in *. change Millisecond with 1000000 in Hlong. lia. }
  destruct (Duration_Round_Millisecond (clock s1 - clock s) ltac:(lia)) as (H0 & Hm & Ha).
  do 2 eexists. split; [exact (makeRequest_Ok net _ prefix _ _ _ _ _ _ HG HC)|].
  split; [cbn [stdout set_stdout set_open_bodies]; apply last_snoc|].
  rewrite HT. auto.
Qed.

Lemma makeRequest_duration_witness :
  exists s3 duration,
    makeRequest net_slow_body (createHTTPClient net_slow_body "[G1] ") "[G1] " (boot 1499999)
    = Some (tt, s3)
    /\ last (stdout s3) = Some (end_line "[G1] " 101499999 200 5 duration "icn1::x")
    /\ 0 <= duration
    /\ duration mod Millisecond = 0
    /\ 2 * Z.abs (duration - (101499999 - 1499999)) <= Millisecond.
Proof.
  apply (makeRequest_duration net_slow_body "[G1] " (boot 1499999)
           (mkResponse 200 (vercel_header "icn1::x") (Chunk (900 * Millisecond) "hello" EOF) None)
           (mkState 101499999
              [start_line "[G1] " 1499999; conn_line "[G1] " dialed_addr]
              [("tcp4", dialed_addr)] 1 [] 1 [])
           5 None
           (mkState 1001499999
              [start_line "[G1] " 1499999; conn_line "[G1] " dialed_addr]
              [("tcp4", dialed_addr)] 1 [] 1 [])).
  - vm_compute. reflexivity.
  - vm_compute. reflexivity.
  - vm_compute. discriminate.
Defined.

(** ** The worker *)

Lemma requestInterval_pos : 0 < requestInterval.
Proof. reflexivity. Qed.

(** The ticker: a receive is never early, it leaves the next tick in
    the future and at most one period away, and the ticks stay on the
    grid the ticker was made on. *)
Lemma recv_tick_inv (when : Z) (s : State) (when' : Z) (s' : State) :
  recv_tick requestInterval when s = Some (when', s') ->
  s' = set_clock (Z.max (clock s) when) s
  /\ clock s' < when' <= clock s' + requestInterval
  /\ when + requestInterval <= when'
  /\ (when' - when) mod requestInterval = 0.
Proof.
  pose proof requestInterval_pos as Hd. unfold recv_tick.
  destruct (Z.leb_spec when (clock s)) as [Hle|Hlt]; intros [= <- <-].
  - pose proof (Z.mul_div_le (clock s - when) requestInterval Hd).
    pose proof (Z.mod_pos_bound (clock s - when) requestInterval Hd).
    pose proof (Z.div_mod (clock s - when) requestInterval ltac:(lia)).
    assert (0 <= (clock s - when) / requestInterval) by (apply Z.div_pos; lia).
    split; [rewrite Z.max_l by lia; destruct s; reflexivity|].
    split; [nia|]. split; [nia|].
    replace (when + requestInterval * (1 + (clock s - when) / requestInterval) - when)
      with ((1 + (clock s - when) / requestInterval) * requestInterval) by lia.
    apply Z_mod_mult.
  - cbn [clock set_clock]. split; [now rewrite Z.max_r by lia|].
    split; [lia|]. split; [lia|].
    replace (when + requestInterval - when) with (1 * requestInterval) by lia.
    apply Z_mod_mult.
Qed.

(** What the loop of a worker leaves when it comes to rest: as many
    requests as ticks were taken before the stop case, all bodies
    closed; it returned exactly when the stop case was taken, and then
    its stopping line is the last one.  A tick is not taken before it
    is due, and the ticks are a period apart. *)
Lemma worker_loop_inv (net : Network) (prefix : string) (workerID : Z) (sched : list Ready) :
  forall ticker s e s',
    worker_loop net (createHTTPClient net prefix) prefix workerID ticker sched s = Some (e, s') ->
    gets s' = (gets s + ticks_served sched)%nat
    /\ open_bodies s' = open_bodies s
    /\ clock s <= clock s'
    /\ ((1 <= ticks_served sched)%nat ->
        ticker + (Z.of_nat (ticks_served sched) - 1) * requestInterval <= clock s')
    /\ (exists more, stdout s' = stdout s ++ more)
    /\ (e = Returned <-> stops sched = true)
    /\ (e = Returned ->
        last (stdout s')
        = Some (mkLine ("%s Worker %d stopping..." +:+ nl) [VStr prefix; VInt workerID])).
Proof.
  induction sched as [|[|] sched IH]; intros ticker s e s' H;
    cbn [worker_loop ticks_served stops] in *.
  - injection H as <- <-. rewrite Nat.add_0_r.
    repeat split; try lia; try discriminate. exists []. now rewrite app_nil_r.
  - apply bind_inv in H as (ticker' & s0 & HT & H).
    apply recv_tick_inv in HT as (E0 & Hnext & Hgrid & _).
    apply bind_inv in H as ([] & s1 & HM & H).
    apply makeRequest_inv in HM as (lines & newdials & outcome & E1 & Hc1 & _).
    apply IH in H as (Hg & Hb & Hc & Hrate & (more & Hout) & Hret & Hlast).
    rewrite E1 in Hg, Hb, Hout. cbn [gets open_bodies stdout] in Hg, Hb, Hout.
    rewrite E0 in Hg, Hb, Hout, Hc1. cbn [gets open_bodies stdout clock set_clock] in Hg, Hb, Hout, Hc1.
    split; [lia|]. split; [exact Hb|]. split; [lia|].
    split; [|split; [|split; [exact Hret|exact Hlast]]].
    + intros _. destruct (ticks_served sched) as [|k] eqn:Ek.
      * cbn. lia.
      * specialize (Hrate ltac:(lia)). lia.
    + eexists. rewrite Hout, <- app_assoc. reflexivity.
  - apply bind_inv in H as ([] & s1 & [= <-] & [= <- <-]).
    cbn [gets open_bodies clock stdout set_stdout]. rewrite Nat.add_0_r.
    split; [reflexivity|]. split; [reflexivity|]. split; [lia|].
    split; [lia|]. split; [eauto|]. split; [tauto|]. intros _. apply last_snoc.
Qed.

(** X8.  A worker that comes to rest has first printed its started
    line and then at once, at the time it was started and before any
    tick, the start line of a first probe. *)
Theorem runWorker_initial_probe (net : Network) (workerID : Z) (sched : list Ready)
    (s s' : State) (e : WorkerEnd) :
  runWorker net workerID sched s = Some (e, s') ->
  exists more,
    stdout s'
    = stdout s ++ worker_started_line workerID
                  :: start_line (worker_prefix workerID) (clock s) :: more.
Proof.
  intros H. unfold runWorker in H.
  apply bind_inv in H as (ticker & s00 & [= <- <-] & H).
  apply bind_inv in H as ([] & s0 & [= <-] & H).
  apply bind_inv in H as ([] & s1 & HM & H).
  apply makeRequest_inv in HM as (lines & newdials & outcome & E1 & _).
  apply worker_loop_inv in H as (_ & _ & _ & _ & (more & Hout) & _).
  rewrite E1 in Hout. cbn [stdout set_stdout clock] in Hout.
  eexists. rewrite Hout, <- !app_assoc. reflexivity.
Qed.

Lemma runWorker_initial_probe_witness :
  exists e s' more,
    runWorker net_slow_body 2 [Tick; Stop; Tick] (boot 5) = Some (e, s')
    /\ stdout s'
       = stdout (boot 5) ++ worker_started_line 2
                             :: start_line (worker_prefix 2) (clock (boot 5)) :: more.
Proof.
  destruct (runWorker net_slow_body 2 [Tick; Stop; Tick] (boot 5)) as [[e s']|] eqn:E.
  - destruct (runWorker_initial_probe net_slow_body 2 [Tick; Stop; Tick] (boot 5) s' e E)
      as [more Hout].
    exists e, s', more. split; [reflexivity|exact Hout].
  - vm_compute in E. discriminate.
Defined.

(** X9.  A worker that comes to rest has made one request more than
    the ticks its [select] took before the stop case, and has closed
    the body of every response.  It has returned exactly when the stop
    case was taken, and then its stopping line is its last line: what
    the ticker does after the stop is not served. *)
Theorem runWorker_requests (net : Network) (workerID : Z) (sched : list Ready)
    (s s' : State) (e : WorkerEnd) :
  runWorker net workerID sched s = Some (e, s') ->
  gets s' = (gets s + 1 + ticks_served sched)%nat
  /\ open_bodies s' = open_bodies s
  /\ (e = Returned <-> stops sched = true)
  /\ (e = Returned -> last (stdout s') = Some (worker_stopping_line workerID)).
Proof.
  intros H. unfold runWorker in H.
  apply bind_inv in H as (ticker & s00 & [= <- <-] & H).
  apply bind_inv in H as ([] & s0 & [= <-] & H).
  apply bind_inv in H as ([] & s1 & HM & H).
  apply makeRequest_inv in HM as (lines & newdials & outcome & E1 & Hc1 & _).
  apply worker_loop_inv in H as (Hg & Hb & _ & _ & _ & Hret & Hlast).
  rewrite E1 in Hg, Hb. cbn [gets open_bodies set_stdout] in Hg, Hb.
  split; [lia|]. split; [exact Hb|]. split; [exact Hret|exact Hlast].
Qed.

Lemma runWorker_requests_witness :
  exists e s',
    runWorker net_slow_body 2 [Tick; Stop; Tick] (boot 5) = Some (e, s')
    /\ gets s' = (gets (boot 5) + 1 + ticks_served [Tick; Stop; Tick])%nat
    /\ open_bodies s' = open_bodies (boot 5)
    /\ (e = Returned <-> stops [Tick; Stop; Tick] = true)
    /\ (e = Returned -> last (stdout s') = Some (worker_stopping_line 2)).
Proof.
  destruct (runWorker net_slow_body 2 [Tick; Stop; Tick] (boot 5)) as [[e s']|] eqn:E.
  - exists e, s'. split; [reflexivity|].
    exact (runWorker_requests net_slow_body 2 [Tick; Stop; Tick] (boot 5) s' e E).
  - vm_compute in E. discriminate.
Defined.

(** A probe whose connection is there and whose response never comes
    does not return. *)
Lemma makeRequest_stalls (net : Network) (prefix : string) (s : State) :
  ex_head (serve net (gets s)) = HeadStalls ->
  (ex_pooled (serve net (gets s)) = true
   \/ exists after conn,
        ex_pooled (serve net (gets s)) = false
        /\ connect net (length (dials s)) "tcp4" dialed_addr = Connects after conn
        /\ Z.max 0 after <= 10 * Second) ->
  makeRequest net (createHTTPClient net prefix) prefix s = None.
Proof.
  intros Hstall Hconn.
  apply makeRequest_blocks. rewrite createHTTPClient_Get.
  cbn [started gets set_stdout]. cbv zeta. rewrite Hstall.
  destruct Hconn as [-> | (after & conn & -> & Hc & Hle)]; [reflexivity|].
  rewrite createHTTPClient_dial_target.
  rewrite (Dialer_connects net dialed_addr _ after conn); [reflexivity| exact Hc | exact Hle].
Qed.

(** X10.  A worker whose first probe has its connection and gets no
    response never comes to its [select]: whatever the ticker and the
    stop channel hold for it, a stop included, it neither stops nor
    returns. *)
Theorem runWorker_stalled_cannot_stop (net : Network) (workerID : Z) (sched : list Ready)
    (s : State) :
  ex_head (serve net (gets s)) = HeadStalls ->
  (ex_pooled (serve net (gets s)) = true
   \/ exists after conn,
        ex_pooled (serve net (gets s)) = false
        /\ connect net (length (dials s)) "tcp4" dialed_addr = Connects after conn
        /\ Z.max 0 after <= 10 * Second) ->
  runWorker net workerID sched s = None.
Proof.
  intros Hstall Hconn. unfold runWorker.
  unfold bind at 1. cbn [NewTicker]. unfold bind at 1. cbn [Printf]. apply bind_None.
  apply makeRequest_stalls; cbn [gets dials set_stdout]; assumption.
Qed.

Lemma runWorker_stalled_cannot_stop_witness :
  runWorker net_stalled 1 [Stop] (boot 0) = None.
Proof.
  apply (runWorker_stalled_cannot_stop net_stalled 1 [Stop] (boot 0)).
  - reflexivity.
  - right. exists (20 * Millisecond), (tcpConn 0 dialed_addr).
    split; [reflexivity|]. split; [reflexivity|]. vm_compute. discriminate.
Defined.

(** ** The prefix of a worker *)

Lemma append_cancel_r (t : string) : forall x y : string, x +:+ t = y +:+ t -> x = y.
Proof.
  induction x as [|c x IH]; intros [|d y] H.
  - reflexivity.
  - exfalso. apply (f_equal len) in H. rewrite !len_append in H.
    unfold len in H. cbn [String.length] in H. lia.
  - exfalso. apply (f_equal len) in H. rewrite !len_append in H.
    unfold len in H. cbn [String.length] in H. lia.
  - rewrite !append_cons in H. injection H as -> H. f_equal. now apply IH.
Qed.

(** X13.  Workers with different identities have different prefixes:
    the lines of one worker are never taken for those of another. *)
Theorem worker_prefix_differs (a b : Z) :
  0 <= a <= MaxInt64 -> 0 <= b <= MaxInt64 ->
  a <> b ->
  worker_prefix a <> worker_prefix b.
Proof.
  intros Ha Hb Hne H. apply Hne. unfold worker_prefix in H.
  rewrite !append_cons, !append_nil in H. injection H as H.
  apply append_cancel_r in H.
  pose proof (Atoi_Itoa a Ha) as Ea. pose proof (Atoi_Itoa b Hb) as Eb.
  rewrite H in Ea. congruence.
Qed.

Lemma worker_prefix_differs_witness : worker_prefix 1 <> worker_prefix 12.
Proof.
  apply (worker_prefix_differs 1 12); unfold MaxInt64; lia.
Defined.

(** ** The pace of a worker *)



Lemma worker_loop_on_time (net : Network) (prefix : string) (workerID : Z)
    (Hfast : forall s1 s2,
        makeRequest net (createHTTPClient net prefix) prefix s1 = Some (tt, s2) ->
        clock s2 < clock s1 + requestInterval)
    (sched : list Ready) :
  forall ticker s e s',
    clock s < ticker ->
    worker_loop net (createHTTPClient net prefix) prefix workerID ticker sched s = Some (e, s') ->
    forall j : nat, (j < ticks_served sched)%nat ->
      In (start_line prefix (ticker + Z.of_nat j * requestInterval)) (stdout s').
Proof.
  induction sched as [|[|] sched IH]; intros ticker s e s' Hlt H j Hj;
    cbn [worker_loop ticks_served] in *; try lia.
  apply bind_inv in H as (ticker' & s0 & HT & H).
  apply recv_tick_inv in HT as (E0 & Hnext & Hgrid & _).
  apply bind_inv in H as ([] & s1 & HM & H).
  pose proof (Hfast _ _ HM) as Hf.
  apply makeRequest_inv in HM as (lines & newdials & outcome & E1 & _).
  assert (Hc0 : clock s0 = ticker) by (rewrite E0; cbn [clock set_clock]; lia).
  assert (Ht' : ticker' = ticker + requestInterval) by lia.
  destruct j as [|j].
  - apply worker_loop_inv in H as (_ & _ & _ & _ & (more & Hout) & _).
    rewrite Hout, E1. cbn [stdout]. rewrite Hc0, Z.mul_0_l, Z.add_0_r.
    apply in_or_app. left. apply in_or_app. right. now left.
  - replace (ticker + Z.of_nat (S j) * requestInterval)
      with (ticker' + Z.of_nat j * requestInterval) by lia.
    apply (IH ticker' s1 e s'); [lia|exact H|lia].
Qed.

(** X12.  When every probe of a worker takes less than the interval,
    its probes start on the beat of the ticker: the first when the
    worker is started, and one at each interval after that, as many as
    ticks were taken.  The duration of the probes does not add up in
    the schedule. *)
Theorem runWorker_on_time (net : Network) (workerID : Z) (sched : list Ready)
    (s s' : State) (e : WorkerEnd) :
  (forall s1 s2,
      makeRequest net (createHTTPClient net (worker_prefix workerID)) (worker_prefix workerID) s1
      = Some (tt, s2) ->
      clock s2 < clock s1 + requestInterval) ->
  runWorker net workerID sched s = Some (e, s') ->
  forall j : nat, (j <= ticks_served sched)%nat ->
    In (start_line (worker_prefix workerID) (clock s + Z.of_nat j * requestInterval))
       (stdout s').
Proof.
  intros Hfast H j Hj. unfold runWorker in H.
  apply bind_inv in H as (ticker & s00 & [= <- <-] & H).
  apply bind_inv in H as ([] & s0 & [= <-] & H).
  apply bind_inv in H as ([] & s1 & HM & H).
  pose proof (Hfast _ _ HM) as Hf. cbn [clock set_stdout] in Hf.
  apply makeRequest_inv in HM as (lines & newdials & outcome & E1 & _).
  destruct j as [|j].
  - apply worker_loop_inv in H as (_ & _ & _ & _ & (more & Hout) & _).
    rewrite Hout, E1. cbn [stdout set_stdout clock]. rewrite Z.mul_0_l, Z.add_0_r.
    apply in_or_app. left. apply in_or_app. right. now left.
  - replace (clock s + Z.of_nat (S j) * requestInterval)
      with (clock s + requestInterval + Z.of_nat j * requestInterval) by lia.
    apply (worker_loop_on_time net (worker_prefix workerID) workerID Hfast sched
             (clock s + requestInterval) s1 e s'); [exact Hf|exact H|lia].
Qed.

(** On [net_empty_header] a probe takes a tenth of a second. *)
Lemma net_empty_header_fast (prefix : string) (s1 s2 : State) :
  makeRequest net_empty_header (createHTTPClient net_empty_header prefix) prefix s1
  = Some (tt, s2) ->
  clock s2 < clock s1 + requestInterval.
Proof.
  intros H.
  assert (Hdial : forall s,
             Dialer_DialContext net_empty_header (mkDialer (10 * Second) (30 * Second)) None
               "tcp4" dialed_addr s
             = Some (Ok (tcpConn (length (dials s)) dialed_addr),
                     set_clock (clock s + Z.max 0 (20 * Millisecond))
                       (set_dials (dials s ++ [("tcp4", dialed_addr)]) s))).
  { intros s. apply Dialer_connects; [reflexivity|vm_compute; discriminate]. }
  apply makeRequest_cases in H as [(err & s3 & HG & ->)|(resp & s3 & n & e & s4 & HG & HC & ->)];
    rewrite createHTTPClient_Get in HG; cbv zeta in HG;
    cbn [net_empty_header net_with serve ex_pooled ex_head] in HG;
    rewrite createHTTPClient_dial_target, Hdial in HG; [discriminate|].
  injection HG as <- <-.
  unfold io_Copy_Discard in HC. cbn [body_deadline Body copy_discard] in HC.
  unfold bind, await, ret in HC. injection HC as _ _ <-.
  unfold started. cbn [clock set_open_bodies set_stdout set_clock set_dials set_gets].
  change requestInterval with 1000000000. change (Z.max 0 0) with 0.
  change (Z.max 0 (20 * Millisecond)) with 20000000.
  change (Z.max 0 (80 * Millisecond)) with 80000000. lia.
Qed.

Lemma runWorker_on_time_witness :
  exists e s',
    runWorker net_empty_header 3 [Tick; Tick] (boot 0) = Some (e, s')
    /\ forall j : nat, (j <= ticks_served [Tick; Tick])%nat ->
         In (start_line (worker_prefix 3) (clock (boot 0) + Z.of_nat j * requestInterval))
            (stdout s').
Proof.
  destruct (runWorker net_empty_header 3 [Tick; Tick] (boot 0)) as [[e s']|] eqn:E.
  - exists e, s'. split; [reflexivity|].
    exact (runWorker_on_time net_empty_header 3 [Tick; Tick] (boot 0) s' e
             (net_empty_header_fast (worker_prefix 3)) E).
  - vm_compute in E. discriminate.
Defined.

(** ** What [main] prints, and when it returns *)

(** X14.  Before it waits, [main] prints the banner with the number of
    workers it then starts, and nothing else but, in front of it, the
    complaint about an argument it does not accept: without an argument
    there is one worker and no complaint, an accepted argument is the
    count, and a rejected one is named in the complaint and replaced by
    one. *)
Theorem main_start_output (Args : list string) (s : State) :
  exists n pre s',
    main_start Args s = Some (n, s')
    /\ stdout s' = stdout s ++ pre ++ banner n
    /\ length (goroutines s') = (length (goroutines s) + Z.to_nat n)%nat
    /\ match Args !! 1%nat with
       | None => n = 1 /\ pre = []
       | Some arg =>
           (Atoi arg = Ok n /\ 0 < n /\ pre = [])
           \/ (invalid_count arg /\ n = 1 /\ pre = [invalid_line arg])
       end.
Proof.
  assert (Hone : 1 <= 1 <= MaxInt64) by (unfold MaxInt64; lia).
  assert (Hs : s = set_stdout (stdout s ++ []) s) by (rewrite app_nil_r; destruct s; reflexivity).
  assert (HP : exists n pre,
             parse_args Args s = Some (n, set_stdout (stdout s ++ pre) s)
             /\ 1 <= n <= MaxInt64
             /\ match Args !! 1%nat with
                | None => n = 1 /\ pre = []
                | Some arg =>
                    (Atoi arg = Ok n /\ 0 < n /\ pre = [])
                    \/ (invalid_count arg /\ n = 1 /\ pre = [invalid_line arg])
                end).
  { unfold parse_args, invalid_count. destruct (Args !! 1%nat) as [arg|].
    - destruct (Atoi arg) as [n|err] eqn:HA.
      + destruct (Z.ltb_spec 0 n).
        * exists n, []. apply Atoi_range in HA as Hr.
          split; [unfold ret; congruence|]. split; [lia|]. left. auto.
        * exists 1, [invalid_line arg]. split; [reflexivity|]. split; [exact Hone|].
          right. auto.
      + exists 1, [invalid_line arg]. split; [reflexivity|]. split; [exact Hone|].
        right. auto.
    - exists 1, []. split; [unfold ret; congruence|]. auto. }
  destruct HP as (n & pre & HP & Hn & Hcase).
  exists n, pre. eexists. split; [exact (main_start_from Args s _ n HP Hn)|].
  cbn [stdout goroutines clock set_stdout set_clock set_goroutines].
  split; [now rewrite <- app_assoc|]. split; [|exact Hcase].
  now rewrite length_app, staggered_length.
Qed.

(** X15.  [main] returns only on a signal.  A signal that comes at
    [t], even one that comes while the workers are still being started,
    is acted on when all of them are started and not before: [main]
    returns at the later of [t] and the end of its loop, its last line
    is the shutdown line, and it waits for no worker.  Without a signal
    it does not return. *)
Theorem main_returns_on_signal (Args : list string) (s : State) :
  (forall t, exists n s',
      main Args (Some t) s = Some (tt, s')
      /\ 1 <= n
      /\ clock s' = Z.max (clock s + n * workerOffset) t
      /\ last (stdout s') = Some shutdown_line
      /\ length (goroutines s') = (length (goroutines s) + Z.to_nat n)%nat)
  /\ main Args None s = None.
Proof.
  destruct (parse_args_returns Args s) as (n & out & HP & Hn).
  pose proof (main_start_from Args s _ n HP Hn) as HM.
  split.
  - intros t. exists n. eexists. unfold main. rewrite (bind_Some _ _ _ _ _ HM).
    unfold bind at 1. cbn [recv_stopChan]. split; [reflexivity|].
    cbn [stdout goroutines clock set_stdout set_clock set_goroutines].
    split; [lia|]. split; [reflexivity|]. split; [apply last_snoc|].
    now rewrite length_app, staggered_length.
  - unfold main. rewrite (bind_Some _ _ _ _ _ HM). reflexivity.
Qed.

(** ** The goroutines of a process *)

Ltac step_cases H ws buf :=
  repeat match type of H with
    | context [if ?a <? ?b then _ else _] => destruct (Z.ltb_spec a b)
    | context [match ws !! ?w with _ => _ end] =>
        let E := fresh "Ew" in destruct (ws !! w) as [[| |]|] eqn:E
    | context [match buf with _ => _ end] => destruct buf as [|? buf]
    end.

Lemma step_workers_so_far (n : Z) (a : Action) (s s' : System) :
  n <= MaxInt64 ->
  workers_so_far n s -> step a s = Some s' -> workers_so_far n s'.
Proof.
  unfold step, workers_so_far. destruct s as [n0 buf pc ws evs].
  cbn [numGoroutines stopChan main_pc workers events]. intros Hn [-> Hpc] H.
  destruct pc as [i| |], a as [| | |w|w|w|sig]; try discriminate;
    step_cases H ws buf; try discriminate; injection H as <-;
    cbn [numGoroutines main_pc workers]; (split; [reflexivity|]);
    try exact Hpc.
  - destruct Hpc as [Hi Hpc].
    rewrite wrap64_small by (unfold MinInt64, MaxInt64 in *; lia).
    split; [lia|]. intros w. rewrite lookup_insert_is_Some, Hpc.
    destruct (decide (i + 1 = w)); [subst; intuition lia|intuition lia].
  - destruct Hpc as [Hi Hpc]. intros w. rewrite Hpc. lia.
  - destruct Hpc as [Hi Hpc]. split; [exact Hi|]. intros w'.
    rewrite lookup_insert_is_Some, <- Hpc.
    assert (is_Some (ws !! w)) by (rewrite Ew; eauto).
    destruct (decide (w = w')); [subst; tauto|tauto].
  - destruct Hpc as [Hi Hpc]. split; [exact Hi|]. intros w'.
    rewrite lookup_insert_is_Some, <- Hpc.
    assert (is_Some (ws !! w)) by (rewrite Ew; eauto).
    destruct (decide (w = w')); [subst; tauto|tauto].
  - intros w'. rewrite lookup_insert_is_Some, <- Hpc.
    assert (is_Some (ws !! w)) by (rewrite Ew; eauto).
    destruct (decide (w = w')); [subst; tauto|tauto].
  - intros w'. rewrite lookup_insert_is_Some, <- Hpc.
    assert (is_Some (ws !! w)) by (rewrite Ew; eauto).
    destruct (decide (w = w')); [subst; tauto|tauto].
Qed.

Lemma boot_workers_so_far (n : Z) : 0 <= n -> workers_so_far n (boot_system n).
Proof.
  intros Hn. split; [reflexivity|]. cbn [boot_system main_pc workers]. split; [lia|].
  intros w. rewrite lookup_empty. split; [intros [x Hx]; discriminate|lia].
Qed.

(** X16.  Whatever the goroutines and the signals do, the workers of a
    process are those [main] has started so far, with the identities
    from 1 on and no gap, and once the loop is left they are exactly
    the workers 1, ..., [n]: there is never a worker 0, nor one
    too many. *)
Theorem workers_are_one_to_n (n : Z) (acts : list Action) (s : System) :
  1 <= n <= MaxInt64 ->
  exec acts (boot_system n) = Some s ->
  workers_so_far n s.
Proof.
  intros Hn H.
  apply (exec_invariant (workers_so_far n)
           (fun a s1 s2 => step_workers_so_far n a s1 s2 ltac:(lia)) acts _ _
           (boot_workers_so_far n ltac:(lia)) H).
Qed.

Lemma workers_are_one_to_n_witness :
  exists s, exec one_signal_run (boot_system 2) = Some s /\ workers_so_far 2 s.
Proof.
  destruct (exec one_signal_run (boot_system 2)) as [s|] eqn:E.
  - exists s. split; [reflexivity|].
    apply (workers_are_one_to_n 2 one_signal_run s); [unfold MaxInt64; lia|exact E].
  - vm_compute in E. discriminate.
Defined.

Lemma step_stopChan_one (a : Action) (s s' : System) :
  (length (stopChan s) <= 1)%nat -> step a s = Some s' -> (length (stopChan s') <= 1)%nat.
Proof.
  unfold step. destruct s as [n buf pc ws evs].
  cbn [numGoroutines stopChan main_pc workers events]. intros Hb H.
  destruct pc as [i| |], a as [| | |w|w|w|sig]; try discriminate;
    step_cases H ws buf; try discriminate; injection H as <-; cbn [stopChan length] in *;
    try lia;
    unfold notify; destruct (Nat.ltb_spec (length buf) 1); rewrite ?length_app; cbn [length]; lia.
Qed.

(** X17.  The stop channel never holds more than one signal, and a
    signal that arrives while one is waiting in it is dropped: it
    changes nothing, whatever signal it is. *)
Theorem stopChan_holds_one (n : Z) (acts : list Action) (s : System) :
  exec acts (boot_system n) = Some s ->
  (length (stopChan s) <= 1)%nat
  /\ forall sig, stopChan s <> [] -> main_pc s <> MainExit -> step (Deliver sig) s = Some s.
Proof.
  intros H.
  assert (Hb : (length (stopChan s) <= 1)%nat).
  { apply (exec_invariant (fun s => (length (stopChan s) <= 1)%nat) step_stopChan_one
             acts (boot_system n) s); [cbn; lia|exact H]. }
  split; [exact Hb|]. intros sig Hne Hpc.
  destruct s as [n0 buf pc ws evs]. cbn [stopChan main_pc] in *.
  unfold step, notify. cbn [numGoroutines stopChan main_pc workers events].
  destruct buf as [|x buf]; [congruence|]. cbn [length] in *.
  destruct (Nat.ltb_spec (S (length buf)) 1); [lia|].
  destruct pc; [reflexivity|reflexivity|congruence].
Qed.

Lemma stopChan_holds_one_witness :
  exists s,
    exec [Spawn; Deliver Interrupt; Deliver SIGTERM] (boot_system 2) = Some s
    /\ (length (stopChan s) <= 1)%nat
    /\ forall sig, stopChan s <> [] -> main_pc s <> MainExit -> step (Deliver sig) s = Some s.
Proof.
  destruct (exec [Spawn; Deliver Interrupt; Deliver SIGTERM] (boot_system 2)) as [s|] eqn:E.
  - exists s. split; [reflexivity|].
    exact (stopChan_holds_one 2 [Spawn; Deliver Interrupt; Deliver SIGTERM] s E).
  - vm_compute in E. discriminate.
Defined.

Lemma snoc_split {A} (l : list A) (e : A) (before : list A) (x : A) (after : list A) :
  l ++ [e] = before ++ x :: after ->
  (after = [] /\ x = e /\ before = l)
  \/ exists after', after = after' ++ [e] /\ l = before ++ x :: after'.
Proof.
  destruct after as [|y after _] using rev_ind; intros H.
  - left. apply app_inj_tail in H as [-> ->]. auto.
  - right. exists after.
    change (before ++ x :: after ++ [y]) with (before ++ (x :: after) ++ [y]) in H.
    rewrite app_assoc in H. apply app_inj_tail in H as [-> ->]. auto.
Qed.

Lemma step_stops_last (n : Z) (a : Action) (s s' : System) :
  n <= MaxInt64 ->
  workers_so_far n s -> stops_last s -> step a s = Some s' -> stops_last s'.
Proof.
  unfold step, workers_so_far, stops_last. destruct s as [n0 buf pc ws evs].
  cbn [numGoroutines stopChan main_pc workers events]. intros Hn [-> Hpc] [H1 H2] H.
  destruct pc as [i| |], a as [| | |w|w|w|sig]; try discriminate;
    step_cases H ws buf; try discriminate; injection H as <-;
    cbn [numGoroutines main_pc workers events];
    try (split; [exact H1|exact H2]).
  all: try match goal with
    | |- context [wrap64 (?i + 1)] =>
        destruct Hpc as [Hi Hpc];
        rewrite wrap64_small by (unfold MinInt64, MaxInt64 in *; lia);
        assert (Hnew : ws !! (i + 1) = None)
          by (destruct (ws !! (i + 1)) eqn:E; [|reflexivity];
              assert (is_Some (ws !! (i + 1))) as Hs%Hpc by eauto; lia);
        split;
        [ intros w Hw; rewrite lookup_insert in Hw; case_decide;
          [destruct Hw; discriminate | now apply H1]
        | intros w before after Hev; destruct (H2 w before after Hev) as (Ha & Hb & Hc);
          split; [exact Ha|]; split; [|exact Hc];
          rewrite lookup_insert; case_decide; [congruence|exact Hb] ]
    end.
  all: split.
  all: try (intros w' Hw'; apply in_or_app;
      try (rewrite lookup_insert in Hw'; case_decide;
           [subst; first [right; left; reflexivity | left; apply H1; auto]|]);
      try (left; now apply H1); fail).
  all: intros w' before after Hev;
    apply snoc_split in Hev as [(-> & Hx & ->)|(after' & -> & ->)].
  all: try discriminate.
  all: try (injection Hx as ->; split; [apply H1; auto|];
            split; [now rewrite lookup_insert, decide_True|]; intros []).
  all: destruct (H2 w' before after' eq_refl) as (Ha & Hb & Hc).
  all: (split; [exact Ha|]).
  all: split;
    [ first [exact Hb | rewrite lookup_insert; case_decide; [congruence|exact Hb]] |].
  all: intros [Hin|Hin]%in_app_or; [now apply Hc|].
  all: destruct Hin as [Hin|[]]; congruence.
Qed.

Lemma boot_stops_last (n : Z) : stops_last (boot_system n).
Proof.
  split.
  - intros w [H|H]; cbn [boot_system workers] in H; rewrite lookup_empty in H; discriminate.
  - intros w before after H. cbn [boot_system events] in H.
    destruct before; discriminate.
Qed.

(** X19.  In every run, a worker that is in its loop or has returned
    has made a probe of its own before, and its stopping line is the
    last thing a worker leaves: a probe of it comes before, the worker
    has returned, and no probe of it comes after. *)
Theorem worker_stops_last (n : Z) (acts : list Action) (s : System) :
  1 <= n <= MaxInt64 ->
  exec acts (boot_system n) = Some s ->
  stops_last s.
Proof.
  intros Hn H.
  apply (exec_invariant (fun s => workers_so_far n s /\ stops_last s)
           (fun a s1 s2 HP HS =>
              conj (step_workers_so_far n a s1 s2 ltac:(lia) (proj1 HP) HS)
                   (step_stops_last n a s1 s2 ltac:(lia) (proj1 HP) (proj2 HP) HS))
           acts _ _
           (conj (boot_workers_so_far n ltac:(lia)) (boot_stops_last n)) H).
Qed.

Lemma worker_stops_last_witness :
  exists s, exec one_signal_run (boot_system 2) = Some s /\ stops_last s.
Proof.
  destruct (exec one_signal_run (boot_system 2)) as [s|] eqn:E.
  - exists s. split; [reflexivity|].
    apply (worker_stops_last 2 one_signal_run s); [unfold MaxInt64; lia|exact E].
  - vm_compute in E. discriminate.
Defined.

(** X18.  Every goroutine that stopped has taken a signal of its own
    out of the channel: the workers that have returned, [main] if it
    has returned, and the signal still waiting in the channel never
    outnumber the signals that arrived.  Without a signal nothing
    stops, and [k] signals stop at most [k] goroutines. *)
Theorem signals_bound_stops (n : Z) (acts : list Action) (s : System) (ws : list Z) :
  exec acts (boot_system n) = Some s ->
  NoDup ws ->
  (forall w, In w ws -> workers s !! w = Some WReturned) ->
  (length ws + (match main_pc s with MainExit => 1 | _ => 0 end) + length (stopChan s)
   <= delivered acts)%nat.
Proof.
  intros H Hnd Hret. pose proof (exec_budget _ _ _ H) as Hb.
  change (received (boot_system n)) with 0%nat in Hb. cbn [boot_system stopChan length] in Hb.
  destruct (exec_invariant logged step_logged acts _ _ (boot_logged n) H) as [Hw Hm].
  assert (Hws : List.NoDup (map EvStopping ws))
    by (apply NoDup_ListNoDup, NoDup_fmap_2; [intros x y; congruence|exact Hnd]).
  assert (Hstop : incl (map EvStopping ws) (List.filter is_receive (events s))).
  { intros e (w & <- & Hi)%in_map_iff. apply List.filter_In.
    split; [apply Hw, Hret, Hi|reflexivity]. }
  unfold received in Hb.
  destruct (main_pc s) eqn:Epc.
  1, 2: pose proof (List.NoDup_incl_length Hws Hstop) as Hlen;
        rewrite length_map in Hlen; lia.
  assert (Hl : List.NoDup (EvShutdown :: map EvStopping ws)).
  { constructor; [|exact Hws]. intros (w & Hx & _)%in_map_iff. discriminate. }
  assert (Hin : incl (EvShutdown :: map EvStopping ws) (List.filter is_receive (events s))).
  { intros e [<-|He]; [|now apply Hstop].
    apply List.filter_In. split; [now apply Hm|reflexivity]. }
  pose proof (List.NoDup_incl_length Hl Hin) as Hlen.
  cbn [length] in Hlen. rewrite length_map in Hlen. lia.
Qed.

Lemma signals_bound_stops_witness :
  exists s,
    exec one_signal_run (boot_system 2) = Some s
    /\ (length [1] + (match main_pc s with MainExit => 1 | _ => 0 end) + length (stopChan s)
        <= delivered one_signal_run)%nat.
Proof.
  destruct (exec one_signal_run (boot_system 2)) as [s|] eqn:E.
  - exists s. split; [reflexivity|].
    apply (signals_bound_stops 2 one_signal_run s [1] E).
    + apply NoDup_singleton.
    + intros w [<-|[]]. vm_compute in E. injection E as <-. reflexivity.
  - vm_compute in E. discriminate.
Defined.

(** ** A probe whose dial fails *)

(** A dial of the client that meets no connection within the ten
    seconds of the dialer returns an error, within those ten seconds. *)
Lemma Dialer_fails (net : Network) (s : State) :
  (forall after c,
      connect net (length (dials s)) "tcp4" dialed_addr = Connects after c ->
      10 * Second < Z.max 0 after) ->
  exists err t,
    Dialer_DialContext net (mkDialer (10 * Second) (30 * Second)) None "tcp4" dialed_addr s
    = Some (Err err, set_clock t (set_dials (dials s ++ [("tcp4", dialed_addr)]) s))
    /\ clock s <= t <= clock s + 10 * Second.
Proof.
  intros H. unfold Dialer_DialContext. cbn [d_Timeout].
  change (10 * Second =? 0) with false. cbn [earliest].
  assert (Hpos : 0 < 10 * Second) by reflexivity.
  destruct (connect net (length (dials s)) "tcp4" dialed_addr) as [after c|after e|] eqn:Hc;
    cbn [await clock set_dials].
  - specialize (H after c eq_refl).
    destruct (Z.leb_spec (clock s + Z.max 0 after) (clock s + 10 * Second)); [lia|].
    exists ErrTimeout, (Z.max (clock s) (clock s + 10 * Second)). split; [reflexivity|lia].
  - destruct (Z.leb_spec (clock s + Z.max 0 after) (clock s + 10 * Second)).
    + exists e, (clock s + Z.max 0 after). split; [reflexivity|lia].
    + exists ErrTimeout, (Z.max (clock s) (clock s + 10 * Second)). split; [reflexivity|lia].
  - exists ErrTimeout, (Z.max (clock s) (clock s + 10 * Second)). split; [reflexivity|lia].
Qed.

(** X20.  A probe that needs a new connection and gets none within the
    ten seconds of the dialer, because the connect is refused, is not
    answered or is accepted too late, returns within those ten seconds:
    after its start line it prints one error line, with the time the
    dial gave up, and no connection line; the dial is on record and no
    body is left open. *)
Theorem makeRequest_dial_failure (net : Network) (prefix : string) (s : State) :
  ex_pooled (serve net (gets s)) = false ->
  (forall after c,
      connect net (length (dials s)) "tcp4" dialed_addr = Connects after c ->
      10 * Second < Z.max 0 after) ->
  exists s' err,
    makeRequest net (createHTTPClient net prefix) prefix s = Some (tt, s')
    /\ stdout s' = stdout s ++ [start_line prefix (clock s); error_line prefix (clock s') err]
    /\ clock s <= clock s' <= clock s + 10 * Second
    /\ dials s' = dials s ++ [("tcp4", dialed_addr)]
    /\ open_bodies s' = open_bodies s.
Proof.
  intros Hp Hc.
  assert (HG : exists err t,
             Client_Get net (createHTTPClient net prefix) targetURL (started prefix s)
             = Some (Err err,
                     set_clock t
                       (set_dials (dials s ++ [("tcp4", dialed_addr)])
                          (set_gets (S (gets s)) (started prefix s))))
             /\ clock s <= t <= clock s + 10 * Second).
  { rewrite createHTTPClient_Get. cbv zeta.
    change (gets (started prefix s)) with (gets s). rewrite Hp.
    rewrite createHTTPClient_dial_target.
    destruct (Dialer_fails net (set_gets (S (gets s)) (started prefix s)) Hc)
      as (err & t & HD & Ht).
    rewrite HD. exists err, t. split; [reflexivity|exact Ht]. }
  destruct HG as (err & t & HG & Ht).
  eexists. exists err. split; [exact (makeRequest_Err net _ prefix s err _ HG)|].
  unfold started. cbn [stdout clock dials open_bodies set_stdout set_clock set_dials set_gets].
  split; [now rewrite <- app_assoc|]. split; [exact Ht|]. split; reflexivity.
Qed.

Lemma makeRequest_dial_failure_witness :
  exists s' err,
    makeRequest net_silent (createHTTPClient net_silent "[G1] ") "[G1] " (boot 0) = Some (tt, s')
    /\ stdout s'
       = stdout (boot 0) ++ [start_line "[G1] " (clock (boot 0)); error_line "[G1] " (clock s') err]
    /\ clock (boot 0) <= clock s' <= clock (boot 0) + 10 * Second
    /\ dials s' = dials (boot 0) ++ [("tcp4", dialed_addr)]
    /\ open_bodies s' = open_bodies (boot 0).
Proof.
  apply (makeRequest_dial_failure net_silent "[G1] " (boot 0)).
  - reflexivity.
  - intros after c H. discriminate H.
Defined.
